(** * The COVID-19 dashboard script (app.py): filter, summary, ranking

    The program is one Streamlit script that is re-executed from top to
    bottom on every user interaction.  It loads two CSV tables through a
    memoised loader, restricts the per-country table to the continents
    picked in the sidebar and derives four KPI tiles, a top-10 ranking and
    two reference lines from the restricted table.

    Conventions of the embedding.
    - A pandas DataFrame is the list of its rows, each paired with its
      index label; [read_csv] attaches the labels 0, 1, 2, ...
      Every cell of a record is present: numeric cells are rationals,
      and NaN only arises as the result of a mean over no rows.
    - A float64 value is modelled by the rational it denotes and a sum
      by the exact sum.  The statements use sums structurally (which
      rows are added, in which order) and compare values; none rests on
      associativity, commutativity or monotonicity of addition, which
      float64 and int64 addition lack.
    - A Python exception is the left injection of [result]; the script
      itself runs in a small monad that threads the process state (the
      loader's cache and a log of file reads) and the rendered elements. *)

From Stdlib Require Import List String Ascii ZArith QArith Bool Arith Lia.
From Stdlib Require Import Permutation Sorted DecimalString.
From Stdlib Require OrderedTypeEx DecimalN.
Import ListNotations.
Local Open Scope string_scope.
Local Open Scope list_scope.

Set Implicit Arguments.

(** ** Exceptions *)

Inductive exn : Type :=
| FileNotFoundError (path : string)
| KeyError (key : string)
| ValueError (what : string)
| IndexError (what : string).

Definition result (A : Type) : Type := (exn + A)%type.

Definition ok {A} (a : A) : result A := inr a.
Definition throw {A} (e : exn) : result A := inl e.

Definition rbind {A B} (c : result A) (f : A -> result B) : result B :=
  match c with
  | inl e => inl e
  | inr a => f a
  end.

(** ** The two tables *)

Record TrendRecord : Type := {
  date : string;
  new_cases_smoothed : Q;
  prediction : Q
}.

Record CountryRecord : Type := {
  iso_code : string;
  location : string;
  continent : string;
  total_cases : Q;
  total_deaths : Q;
  vaccination_rate : Q;
  mortality_rate : Q;
  population : Z
}.

(** ** The part of pandas the script uses *)

Module Pandas.

(** A frame: rows in order, each with its index label. *)
Definition DataFrame (R : Type) : Type := list (nat * R).

(** A column taken out of a frame keeps the frame's index. *)
Definition Series (A : Type) : Type := list (nat * A).

(** [pd.read_csv]: the parsed rows under a fresh RangeIndex. *)
Definition read_csv {R} (rows : list R) : DataFrame R :=
  combine (seq 0 (List.length rows)) rows.

(** [df[col]] for a column given by its accessor. *)
Definition col {R A} (f : R -> A) (df : DataFrame R) : Series A :=
  map (fun ir => (fst ir, f (snd ir))) df.

Definition values {A} (s : Series A) : list A := map snd s.

(** [df.empty] *)
Definition empty {R} (df : DataFrame R) : bool :=
  match df with
  | [] => true
  | _ :: _ => false
  end.

(** [Series.sum()]: 0 over no rows. *)
Definition sum (s : Series Q) : Q :=
  fold_left Qplus (values s) 0%Q.

(** [Series.mean()]: NaN ([None]) over no rows. *)
Definition mean (s : Series Q) : option Q :=
  match s with
  | [] => None
  | _ :: _ => Some (sum s / inject_Z (Z.of_nat (List.length s)))%Q
  end.

(** [Series.idxmax()]: the label of the first occurrence of the
    maximum; a [ValueError] over no rows. *)
Fixpoint argmax_from (best : nat * Q) (s : Series Q) : nat * Q :=
  match s with
  | [] => best
  | (i, x) :: s' =>
      if Qle_bool x (snd best) then argmax_from best s'
      else argmax_from (i, x) s'
  end.

Definition idxmax (s : Series Q) : result nat :=
  match s with
  | [] => throw (ValueError "attempt to get argmax of an empty sequence")
  | b :: s' => ok (fst (argmax_from b s'))
  end.

(** [df.loc[label]]: the row carrying the label; a [KeyError] when no
    row does. *)
Fixpoint loc {R} (df : DataFrame R) (label : nat) : result R :=
  match df with
  | [] => throw (KeyError "label")
  | (i, r) :: df' => if Nat.eqb i label then ok r else loc df' label
  end.

(** [Series.isin(values)] *)
Definition isin (s : Series string) (vals : list string) : Series bool :=
  map (fun ix => (fst ix, existsb (String.eqb (snd ix)) vals)) s.

(** [df[mask]] for a boolean series over the same index: the rows
    whose mask entry is true, labels kept. *)
Fixpoint getitem_mask {R} (df : DataFrame R) (mask : Series bool)
  : DataFrame R :=
  match df, mask with
  | ir :: df', (_, b) :: mask' =>
      if b then ir :: getitem_mask df' mask' else getitem_mask df' mask'
  | _, _ => []
  end.

(** [Series.unique()]: distinct values in order of first appearance. *)
Fixpoint unique_from (seen : list string) (l : list string) : list string :=
  match l with
  | [] => []
  | x :: l' =>
      if existsb (String.eqb x) seen then unique_from seen l'
      else x :: unique_from (x :: seen) l'
  end.

Definition unique (s : Series string) : list string :=
  unique_from [] (values s).

(** [df.head(n)] *)
Definition head {R} (n : nat) (df : DataFrame R) : DataFrame R :=
  firstn n df.

(** [df.iloc[-1]]: the last row; an [IndexError] on an empty frame. *)
Fixpoint iloc_last {R} (df : DataFrame R) : result R :=
  match df with
  | [] => throw (IndexError "single positional indexer is out-of-bounds")
  | [(_, r)] => ok r
  | _ :: df' => iloc_last df'
  end.

End Pandas.

(** ** Sorting *)

(** A stable sort over a boolean order [leb]: an insertion sort that puts
    an element in front of the first later element that is not below it,
    so that equal elements keep their input order.  It stands for
    Python's [sorted] and for a sort kind that keeps ties in input
    order. *)
Section Sorts.
Variable A : Type.
Variable leb : A -> A -> bool.

Fixpoint insert_stable (x : A) (l : list A) : list A :=
  match l with
  | [] => [x]
  | y :: l' => if leb x y then x :: l else y :: insert_stable x l'
  end.

Fixpoint sort_stable (l : list A) : list A :=
  match l with
  | [] => []
  | x :: l' => insert_stable x (sort_stable l')
  end.

End Sorts.

(** The [kind] argument of [sort_values]: the algorithm that orders the
    items by a comparison.  The script leaves it at its default,
    'quicksort'.  Of that kind the library promises a sorted
    rearrangement and nothing about equal keys (only 'mergesort' and
    'stable' are documented as stable), and what it does with equal keys
    depends on the build of the numeric library.  The development
    therefore takes the kind as a parameter, constrained by
    [SortContract] where the order of the result matters. *)
Record SortKind : Type := {
  sort_with : forall A : Type, (A -> A -> bool) -> list A -> list A
}.

Definition total {A} (leb : A -> A -> bool) : Prop :=
  forall x y, leb x y = true \/ leb y x = true.

Definition transitive {A} (leb : A -> A -> bool) : Prop :=
  forall x y z, leb x y = true -> leb y z = true -> leb x z = true.

Class SortContract (k : SortKind) : Prop := {
  sort_with_perm :
    forall (A : Type) (leb : A -> A -> bool) (l : list A),
      Permutation (sort_with k leb l) l;
  sort_with_sorted :
    forall (A : Type) (leb : A -> A -> bool),
      total leb -> transitive leb ->
      forall l, StronglySorted (fun x y => leb x y = true) (sort_with k leb l)
}.

Definition kind_stable : SortKind := {| sort_with := sort_stable |}.

(** ** Python built-ins *)

Module Python.

(** [sorted(xs)] on strings: ascending by code point, stable. *)
Definition sorted (xs : list string) : list string :=
  sort_stable String.leb xs.

(** Round to the nearest integer, halves to the even neighbour. *)
Definition round_half_even (q : Q) : Z :=
  let n := Qnum q in
  let d := Zpos (Qden q) in
  let fl := (n / d)%Z in
  let r2 := (2 * (n mod d))%Z in
  if (r2 <? d)%Z then fl
  else if (d <? r2)%Z then (fl + 1)%Z
  else if Z.even fl then fl else (fl + 1)%Z.

Definition digits (n : Z) : list ascii :=
  list_ascii_of_string (NilZero.string_of_uint (N.to_uint (Z.to_N n))).

(** Thousands separators, on the digits in reverse. *)
Fixpoint group3 (rev_digits : list ascii) : list ascii :=
  match rev_digits with
  | a :: b :: c :: ((_ :: _) as more) =>
      a :: b :: c :: ","%char :: group3 more
  | l => l
  end.

Definition pad_left (n : nat) (ds : list ascii) : list ascii :=
  repeat "0"%char (n - List.length ds) ++ ds.

(** [f"{x:,.Nf}"] ([grouping = true]) and [f"{x:.Nf}"] for a float [x];
    NaN is [None]. *)
Definition format_f (grouping : bool) (prec : nat) (x : option Q) : string :=
  match x with
  | None => "nan"
  | Some q =>
      let p := (10 ^ Z.of_nat prec)%Z in
      let a := Z.abs (round_half_even (q * inject_Z p)) in
      let int_part := digits (a / p) in
      let int_part :=
        if grouping then rev (group3 (rev int_part)) else int_part in
      let frac :=
        match prec with
        | O => []
        | S _ => "."%char :: pad_left prec (digits (a mod p))
        end in
      let sign := if Qle_bool 0 q then [] else ["-"%char] in
      string_of_list_ascii (sign ++ int_part ++ frac)
  end.

(** [s.replace(old, new)] for one-character [old] and [new]. *)
Fixpoint replace_char (old new : ascii) (s : string) : string :=
  match s with
  | EmptyString => EmptyString
  | String c s' =>
      String (if Ascii.eqb c old then new else c) (replace_char old new s')
  end.

Definition is_lower (c : ascii) : bool :=
  ((97 <=? N_of_ascii c) && (N_of_ascii c <=? 122))%N.

Definition is_upper (c : ascii) : bool :=
  ((65 <=? N_of_ascii c) && (N_of_ascii c <=? 90))%N.

Definition to_upper (c : ascii) : ascii := ascii_of_N (N_of_ascii c - 32).

Definition to_lower (c : ascii) : ascii := ascii_of_N (N_of_ascii c + 32).

(** [s.title()] on ASCII text: a letter that follows a letter is put in
    lower case, any other letter in upper case; characters that are not
    letters are kept and end the word. *)
Fixpoint title_from (previous_is_cased : bool) (s : string) : string :=
  match s with
  | EmptyString => EmptyString
  | String c s' =>
      if is_lower c then
        String (if previous_is_cased then c else to_upper c)
          (title_from true s')
      else if is_upper c then
        String (if previous_is_cased then to_lower c else c)
          (title_from true s')
      else String c (title_from false s')
  end.

Definition title (s : string) : string := title_from false s.

End Python.

(** ** Columns of the per-country table by name *)

Inductive cell : Type :=
| Str (s : string)
| Num (q : Q).

Definition cell_leb (a b : cell) : bool :=
  match a, b with
  | Num x, Num y => Qle_bool x y
  | Str x, Str y => String.leb x y
  | Num _, Str _ => true
  | Str _, Num _ => false
  end.

Definition columns : list (string * (CountryRecord -> cell)) :=
  [ ("iso_code", fun r => Str (iso_code r));
    ("location", fun r => Str (location r));
    ("continent", fun r => Str (continent r));
    ("total_cases", fun r => Num (total_cases r));
    ("total_deaths", fun r => Num (total_deaths r));
    ("vaccination_rate", fun r => Num (vaccination_rate r));
    ("mortality_rate", fun r => Num (mortality_rate r));
    ("population", fun r => Num (inject_Z (population r))) ].

Definition column (name : string) : option (CountryRecord -> cell) :=
  option_map snd (find (fun c => String.eqb (fst c) name) columns).

(** [sort_values(by=..., ascending=...)] on one column: a [KeyError] for
    a name that is no column; a descending sort reverses the items, sorts
    them ascending and reverses the outcome. *)
Definition nargsort (k : SortKind) {A} (key : A -> cell) (ascending : bool)
    (items : list A) : list A :=
  let leb := fun x y => cell_leb (key x) (key y) in
  if ascending then sort_with k leb items
  else rev (sort_with k leb (rev items)).

Definition sort_values (k : SortKind) (by_ : string) (ascending : bool)
    (df : Pandas.DataFrame CountryRecord)
  : result (Pandas.DataFrame CountryRecord) :=
  match column by_ with
  | None => throw (KeyError by_)
  | Some f => ok (nargsort k (fun ir => f (snd ir)) ascending df)
  end.

(** ** The view-model: what the script derives from the loaded tables *)

Module KPI.
(** The four values behind the KPI tiles (lines 86-93). *)
Record t : Type := {
  total_cases : Q;
  total_deaths : Q;
  avg_vax_rate : option Q;
  top_country : string
}.
End KPI.

Inductive RefLine : Type :=
| HLine (y : option Q) (annotation : string)
| VLine (x : option Q) (annotation : string).

Section ViewModel.
Import Pandas.

Definition metrics : list string :=
  ["total_cases"; "total_deaths"; "vaccination_rate"].

(** Line 55: the options of the continent filter. *)
Definition all_continents_of (df_countries : DataFrame CountryRecord)
  : list string :=
  Python.sorted (unique (col continent df_countries)).

(** Lines 63-66: the filter; an empty selection is falsy and keeps the
    whole table. *)
Definition filter_countries (df_countries : DataFrame CountryRecord)
    (selected_continents : list string) : DataFrame CountryRecord :=
  match selected_continents with
  | _ :: _ =>
      getitem_mask df_countries
        (isin (col continent df_countries) selected_continents)
  | [] => df_countries
  end.

(** Lines 90-93. *)
Definition top_country_of (df_filtered : DataFrame CountryRecord)
  : result string :=
  if negb (empty df_filtered) then
    rbind (idxmax (col total_cases df_filtered)) (fun label =>
    rbind (loc df_filtered label) (fun row =>
    ok (location row)))
  else ok "-".

(** Lines 86-93. *)
Definition summarize (df_filtered : DataFrame CountryRecord)
  : result KPI.t :=
  let total_cases := sum (col total_cases df_filtered) in
  let total_deaths := sum (col total_deaths df_filtered) in
  let avg_vax_rate := mean (col vaccination_rate df_filtered) in
  rbind (top_country_of df_filtered) (fun top_country =>
  ok {| KPI.total_cases := total_cases;
        KPI.total_deaths := total_deaths;
        KPI.avg_vax_rate := avg_vax_rate;
        KPI.top_country := top_country |}).

(** Lines 142-143: the error of the forecast on the last date. *)
Definition model_status (df_trend : DataFrame TrendRecord) : result Q :=
  rbind (iloc_last df_trend) (fun last_row =>
  ok (new_cases_smoothed last_row - prediction last_row)%Q).

(** Line 169. *)
Definition top10 (k : SortKind) (col_map_metrics : string)
    (df_filtered : DataFrame CountryRecord)
  : result (DataFrame CountryRecord) :=
  rbind (sort_values k col_map_metrics false df_filtered) (fun sorted =>
  ok (head 10 sorted)).

(** Lines 204-206. *)
Definition reference_lines (df_filtered : DataFrame CountryRecord)
  : list RefLine :=
  if negb (empty df_filtered) then
    [ HLine (mean (col mortality_rate df_filtered)) "Avg Mortality";
      VLine (mean (col vaccination_rate df_filtered)) "Avg Vax Rate" ]
  else [].
End ViewModel.

(** ** Rendered elements and widgets *)

(** What a run sends to the page.  Calls that only place static text or
    layout (titles, dividers, captions, tab and column containers) carry
    no data and cannot fail; they are left out of the trace. *)
Inductive Element : Type :=
| PageConfig (page_title : string)
| Style
| ErrorBox (message : string)
| ContinentFilter (options selected : list string)
| Metric (label value delta : string)
| TrendChart (dates : list string) (actual predicted : list Q)
| ModelStatus (err : string)
| Subheader (text : string)
| Choropleth (color scale : string) (points : list (string * string * cell))
| BarChart (x : string) (bars : list (string * cell))
| BubbleChart (points : list (Q * Q * Z * string * string))
              (lines : list RefLine).

(** What the user has set on the two widgets: the positions picked in
    the continent filter ([None] while the filter is untouched) and the
    position picked in the metric selector. *)
Record UserInput : Type := {
  continent_picks : option (list nat);
  metric_pick : nat
}.

(** [st.multiselect(label, options, default=...)]: the picked options. *)
Definition multiselect (options default : list string)
    (picks : option (list nat)) : list string :=
  match picks with
  | None => default
  | Some positions =>
      flat_map (fun i => match nth_error options i with
                         | Some o => [o]
                         | None => []
                         end) positions
  end.

(** [st.selectbox(label, options)]: the picked option, the first one
    unless the user picked another. *)
Definition selectbox (options : list string) (pick : nat) : string :=
  match nth_error options pick with
  | Some o => o
  | None => hd EmptyString options
  end.

(** Line 152, [format_func=lambda x: x.replace("_", " ").title()]: the
    label under which the selector shows an option; the chart titles of
    lines 161 and 177 use the same expression. *)
Definition format_func (x : string) : string :=
  Python.title (Python.replace_char "_" " " x).

(** [px.choropleth(df, locations="iso_code", color=..., ...)]: plotly
    rejects a [color] that names no column. *)
Definition choropleth (df : Pandas.DataFrame CountryRecord) (color : string)
  : result Element :=
  match column color with
  | None => throw (ValueError color)
  | Some f =>
      ok (Choropleth color
            (if negb (String.eqb color "vaccination_rate")
             then "Reds" else "Greens")
            (map (fun ir => (iso_code (snd ir), location (snd ir), f (snd ir)))
               df))
  end.

(** ** The process and the script monad *)

(** The two input files, as the rows a file parses to; [None] when the
    file is absent. *)
Record Files : Type := {
  ml_global_prediction_csv : option (list TrendRecord);
  country_insight_full_csv : option (list CountryRecord)
}.

Definition Tables : Type :=
  (Pandas.DataFrame TrendRecord * Pandas.DataFrame CountryRecord)%type.

(** What outlives a run: the memo of [load_data] and, as instrumentation,
    the files read so far. *)
Record Process : Type := {
  cache : option Tables;
  reads : list string
}.

Definition fresh_process : Process := {| cache := None; reads := [] |}.

Record World : Type := {
  process : Process;
  rendered : list Element
}.

Inductive outcome (A : Type) : Type :=
| Done (a : A)
| Stopped
| Raised (e : exn).
Arguments Done {A} a.
Arguments Stopped {A}.
Arguments Raised {A} e.

Definition Script (A : Type) : Type := World -> outcome A * World.

Definition ret {A} (a : A) : Script A := fun w => (Done a, w).

Definition bind {A B} (c : Script A) (f : A -> Script B) : Script B :=
  fun w =>
    match c w with
    | (Done a, w') => f a w'
    | (Stopped, w') => (Stopped, w')
    | (Raised e, w') => (Raised e, w')
    end.

Notation "x <- c ;; f" := (bind c (fun x => f))
  (at level 61, c at next level, right associativity).
Notation "c ;; f" := (bind c (fun _ => f))
  (at level 61, right associativity).

Definition lift {A} (r : result A) : Script A :=
  fun w =>
    match r with
    | inl e => (Raised e, w)
    | inr a => (Done a, w)
    end.

Definition emit (e : Element) : Script unit :=
  fun w => (Done tt, {| process := process w; rendered := rendered w ++ [e] |}).

(** [st.stop()] *)
Definition stop {A} : Script A := fun w => (Stopped, w).

(** [try: body / except FileNotFoundError: handler] *)
Definition try_except_FileNotFoundError {A} (body handler : Script A)
  : Script A :=
  fun w =>
    match body w with
    | (Raised (FileNotFoundError _), w') => handler w'
    | other => other
    end.

(** [pd.read_csv(path)] against the files of the run. *)
Definition pd_read_csv {R} (file : option (list R)) (path : string)
  : Script (Pandas.DataFrame R) :=
  fun w =>
    match file with
    | None => (Raised (FileNotFoundError path), w)
    | Some rows =>
        (Done (Pandas.read_csv rows),
         {| process := {| cache := cache (process w);
                          reads := reads (process w) ++ [path] |};
            rendered := rendered w |})
    end.

(** [@st.cache_data] on a function without arguments: the body runs
    while the memo is empty, and a value it returns fills the memo; an
    exception fills nothing. *)
Definition cache_data (body : Script Tables) : Script Tables :=
  fun w =>
    match cache (process w) with
    | Some tables => (Done tables, w)
    | None =>
        match body w with
        | (Done tables, w') =>
            (Done tables,
             {| process := {| cache := Some tables;
                              reads := reads (process w') |};
                rendered := rendered w' |})
        | other => other
        end
    end.

(** The two resources, by the names the script opens them under. *)
Definition ml_path : string := "ml_global_prediction.csv".
Definition country_path : string := "country_insight_full.csv".

(** Lines 34-39. *)
Definition load_data (fs : Files) : Script Tables :=
  cache_data (
    df_ml <- pd_read_csv (ml_global_prediction_csv fs) ml_path ;;
    df_countries <- pd_read_csv (country_insight_full_csv fs) country_path ;;
    ret (df_ml, df_countries)).

(** ** The script *)

Definition csv_missing : string :=
  "CSV files not found! Please run the Spark script in Colab first and place 'ml_global_prediction.csv' and 'country_insight_full.csv' in this folder.".

(** Lines 95-98. *)
Definition kpi_tiles (s : KPI.t) : list Element :=
  [ Metric "Total Cases (Selected)"
      (Python.format_f true 0 (Some (KPI.total_cases s))) "Cumulative";
    Metric "Total Deaths"
      (Python.format_f true 0 (Some (KPI.total_deaths s))) "Cumulative";
    Metric "Avg Vaccination Rate"
      (Python.format_f false 1 (KPI.avg_vax_rate s) ++ "%")
      "Fully Vaccinated Pop";
    Metric "#1 Most Impacted" (KPI.top_country s) "Highest Cases" ].

Fixpoint emit_all (es : list Element) : Script unit :=
  match es with
  | [] => ret tt
  | e :: es' => emit e ;; emit_all es'
  end.

(** [px.bar(top10, x=metric, y="location", ...)] *)
Definition bar_chart (top10 : Pandas.DataFrame CountryRecord) (x : string)
  : result Element :=
  match column x with
  | None => throw (ValueError x)
  | Some f => ok (BarChart x (map (fun ir => (location (snd ir), f (snd ir))) top10))
  end.

(** Lines 189-206, [px.scatter(df, x=..., y=..., size="population", ...)]
    followed by the two reference lines: plotly rejects a marker size
    below zero with a [ValueError]. *)
Definition bubble_chart (df_filtered : Pandas.DataFrame CountryRecord)
  : result Element :=
  if forallb (fun ir => (0 <=? population (snd ir))%Z) df_filtered then
    ok (BubbleChart
          (map (fun ir => let r := snd ir in
                          (vaccination_rate r, mortality_rate r, population r,
                           continent r, location r)) df_filtered)
          (reference_lines df_filtered))
  else throw (ValueError "size").

(** Lines 154-181: the two charts of tab 2 for the chosen metric. *)
Definition tab2_charts (k : SortKind) (col_map_metrics : string)
    (df_filtered : Pandas.DataFrame CountryRecord) : Script unit :=
  fig_map <- lift (choropleth df_filtered col_map_metrics) ;;
  emit fig_map ;;
  top10 <- lift (top10 k col_map_metrics df_filtered) ;;
  fig_bar <- lift (bar_chart top10 col_map_metrics) ;;
  emit fig_bar.

(** Lines 50-214: everything after the tables are loaded. *)
Definition dashboard (k : SortKind) (tables : Tables) (ui : UserInput)
  : Script unit :=
  let df_trend := fst tables in
  let df_countries := snd tables in
  (* sidebar, lines 55-66 *)
  let all_continents := all_continents_of df_countries in
  let selected_continents :=
    multiselect all_continents all_continents (continent_picks ui) in
  emit (ContinentFilter all_continents selected_continents) ;;
  let df_filtered := filter_countries df_countries selected_continents in
  (* KPI tiles, lines 86-98 *)
  kpis <- lift (summarize df_filtered) ;;
  emit_all (kpi_tiles kpis) ;;
  (* tab 1, lines 115-144 *)
  emit (TrendChart (Pandas.values (Pandas.col date df_trend))
          (Pandas.values (Pandas.col new_cases_smoothed df_trend))
          (Pandas.values (Pandas.col prediction df_trend))) ;;
  err <- lift (model_status df_trend) ;;
  emit (ModelStatus (Python.format_f true 0 (Some err))) ;;
  (* tab 2, lines 148-181 *)
  emit (Subheader
          ("COVID-19 Distribution Map (" ++
           match selected_continents with
           | _ :: _ => String.concat ", " selected_continents
           | [] => "All Continents"
           end ++ ")")) ;;
  let col_map_metrics := selectbox metrics (metric_pick ui) in
  tab2_charts k col_map_metrics df_filtered ;;
  (* tab 3, lines 189-208 *)
  fig_bubble <- lift (bubble_chart df_filtered) ;;
  emit fig_bubble.

(** One execution of app.py, top to bottom, for the sort kind [k] that
    the installed library uses by default. *)
Definition app (k : SortKind) (fs : Files) (ui : UserInput) : Script unit :=
  (* page configuration, lines 9-29 *)
  emit (PageConfig "COVID-19 Analytics Dashboard") ;;
  emit Style ;;
  (* data loading, lines 41-45 *)
  tables <- try_except_FileNotFoundError (load_data fs)
              (emit (ErrorBox csv_missing) ;; stop) ;;
  dashboard k tables ui.

(** A run starts on an empty page and leaves a process state, what was
    rendered and how the run ended. *)
Definition rerun (k : SortKind) (fs : Files) (ui : UserInput) (p : Process)
  : outcome unit * Process * list Element :=
  let ow := app k fs ui {| process := p; rendered := [] |} in
  (fst ow, process (snd ow), rendered (snd ow)).

(** The process state after a sequence of interactions. *)
Fixpoint session (k : SortKind) (fs : Files) (uis : list UserInput)
    (p : Process) : Process :=
  match uis with
  | [] => p
  | ui :: uis' => session k fs uis' (snd (fst (rerun k fs ui p)))
  end.

(** ** Notions used in the statements *)

(** A sublist keeps some of the items, in their order. *)
Inductive sublist {A : Type} : list A -> list A -> Prop :=
| sublist_nil : sublist [] []
| sublist_skip x l1 l2 : sublist l1 l2 -> sublist l1 (x :: l2)
| sublist_keep x l1 l2 : sublist l1 l2 -> sublist (x :: l1) (x :: l2).

(** The filtered sum in the words of the specification: total cases
    added up over exactly the records whose continent is in [C]. *)
Definition sum_cases_over (C : list string)
    (df : Pandas.DataFrame CountryRecord) : Q :=
  fold_left
    (fun acc ir =>
       if existsb (String.eqb (continent (snd ir))) C
       then (acc + total_cases (snd ir))%Q else acc)
    df 0%Q.

(** What a run of the dashboard part puts on an empty page, and how it
    ends. *)
Definition rendering (k : SortKind) (tables : Tables) (ui : UserInput)
  : outcome unit * list Element :=
  let ow := dashboard k tables ui
              {| process := fresh_process; rendered := [] |} in
  (fst ow, rendered (snd ow)).

(** The page of a run that found a file missing. *)
Definition error_page : list Element :=
  [PageConfig "COVID-19 Analytics Dashboard"; Style; ErrorBox csv_missing].

(** Ties in input order: for every metric value [v], the rows of the
    ranking [res] that carry [v] are the first rows of [df] that carry
    it, in the order they have in [df]. *)
Definition ties_in_input_order (f : CountryRecord -> Q)
    (df res : Pandas.DataFrame CountryRecord) : Prop :=
  forall v : Q, exists rest,
    filter (fun ir => Qeq_bool (f (snd ir)) v) df
    = filter (fun ir => Qeq_bool (f (snd ir)) v) res ++ rest.

(** A script that neither reads nor writes the process state: it only
    appends to the page, and what it appends and how it ends do not
    depend on the world it starts in. *)
Definition stateless {A} (c : Script A) : Prop :=
  exists (o : outcome A) (es : list Element),
    forall w, c w = (o, {| process := process w;
                           rendered := rendered w ++ es |}).

(** The elements that repeat the continent selection itself: the filter
    widget and the subheader of the map. *)
Definition echoes_selection (e : Element) : bool :=
  match e with
  | ContinentFilter _ _ => true
  | Subheader _ => true
  | _ => false
  end.

(** Reading a displayed number back: the separators are dropped and
    the digits read as a decimal numeral. *)
Definition read_grouped (s : string) : option Z :=
  option_map (fun d => Z.of_N (N.of_uint d))
    (NilZero.uint_of_string
       (string_of_list_ascii
          (filter (fun c => negb (Ascii.eqb c ","))
             (list_ascii_of_string s)))).

(** ** Sample data *)

Definition demo_trend : list TrendRecord :=
  [ {| date := "2021-01-01"; new_cases_smoothed := 10; prediction := 7 |} ].

Definition demo_record (loc cont : string) (cases deaths : Q)
  : CountryRecord :=
  {| iso_code := loc; location := loc; continent := cont;
     total_cases := cases; total_deaths := deaths;
     vaccination_rate := 0; mortality_rate := 0; population := 1 |}.

Definition demo_rows : list CountryRecord :=
  [ demo_record "E1" "EU" 100 5;
    demo_record "E2" "EU" 50 1;
    demo_record "A1" "AS" 200 10 ].

Definition demo_ui : UserInput :=
  {| continent_picks := None; metric_pick := 0 |}.

(** * Properties *)

(** ** Facts about lists *)

(** ** The stable sort meets the sort contract *)

Section SortFacts.
Variable A : Type.
Variable leb : A -> A -> bool.

Lemma insert_stable_perm x l : Permutation (insert_stable leb x l) (x :: l).
Proof.
  induction l as [|y l IH]; simpl; [reflexivity|].
  destruct (leb x y); [reflexivity|].
  rewrite IH. apply perm_swap.
Qed.

Lemma sort_stable_perm l : Permutation (sort_stable leb l) l.
Proof.
  induction l as [|x l IH]; simpl; [constructor|].
  rewrite insert_stable_perm. now constructor.
Qed.

Hypothesis leb_total : total leb.
Hypothesis leb_trans : transitive leb.

Let le (x y : A) : Prop := leb x y = true.

Lemma insert_stable_sorted x l :
  StronglySorted le l -> StronglySorted le (insert_stable leb x l).
Proof.
  induction 1 as [|y l Hl IH Hy]; simpl.
  - repeat constructor.
  - destruct (leb x y) eqn:E.
    + constructor; [now constructor|].
      constructor; [exact E|].
      eapply Forall_impl; [|exact Hy].
      intros z Hz. eapply leb_trans; eassumption.
    + constructor; [exact IH|].
      eapply Permutation_Forall;
        [symmetry; apply insert_stable_perm|].
      constructor; [|exact Hy].
      destruct (leb_total x y) as [H|H]; [congruence|exact H].
Qed.

Lemma sort_stable_sorted l : StronglySorted le (sort_stable leb l).
Proof.
  induction l as [|x l IH]; simpl; [constructor|].
  now apply insert_stable_sorted.
Qed.

End SortFacts.

#[export] Instance kind_stable_contract : SortContract kind_stable.
Proof.
  split; simpl; intros.
  - apply sort_stable_perm.
  - now apply sort_stable_sorted.
Qed.

(** A stable sort leaves every class of mutually comparable items in its
    input order. *)
Section Stability.
Variable A : Type.
Variable leb : A -> A -> bool.
Variable cls : A -> bool.
Hypothesis cls_tied :
  forall x y, cls x = true -> cls y = true -> leb x y = true.

Lemma filter_insert_stable x l :
  filter cls (insert_stable leb x l) = filter cls (x :: l).
Proof.
  induction l as [|y l IH]; [reflexivity|].
  simpl insert_stable. destruct (leb x y) eqn:E; [reflexivity|].
  simpl in *. rewrite IH.
  destruct (cls x) eqn:Hx, (cls y) eqn:Hy; try reflexivity.
  assert (leb x y = true) by (now apply cls_tied). congruence.
Qed.

Lemma filter_sort_stable l :
  filter cls (sort_stable leb l) = filter cls l.
Proof.
  induction l as [|x l IH]; [reflexivity|].
  simpl sort_stable. rewrite filter_insert_stable.
  simpl. now rewrite IH.
Qed.

Lemma filter_sort_stable_descending l :
  filter cls (rev (sort_stable leb (rev l))) = filter cls l.
Proof.
  rewrite filter_rev, filter_sort_stable, <- filter_rev.
  now rewrite rev_involutive.
Qed.
End Stability.

Lemma StronglySorted_snoc {A} (R : A -> A -> Prop) l x :
  StronglySorted R l -> Forall (fun y => R y x) l ->
  StronglySorted R (l ++ [x]).
Proof.
  induction 1 as [|y l Hl IH Hy]; simpl; intros Hx.
  - repeat constructor.
  - inversion Hx; subst. constructor; [now apply IH|].
    apply Forall_app. split; [exact Hy|now repeat constructor].
Qed.

Lemma StronglySorted_rev {A} (R : A -> A -> Prop) l :
  StronglySorted R l -> StronglySorted (fun x y => R y x) (rev l).
Proof.
  induction 1 as [|x l Hl IH Hx]; simpl; [constructor|].
  apply StronglySorted_snoc; [exact IH|].
  now apply Forall_rev.
Qed.


Lemma filter_firstn_prefix {A} (p : A -> bool) n l :
  exists rest, filter p l = filter p (firstn n l) ++ rest.
Proof.
  exists (filter p (skipn n l)).
  now rewrite <- filter_app, firstn_skipn.
Qed.

Lemma filter_all {A} (p : A -> bool) l :
  (forall x, In x l -> p x = true) -> filter p l = l.
Proof.
  induction l as [|x l IH]; simpl; intros H; [reflexivity|].
  rewrite (H x (or_introl eq_refl)). f_equal. apply IH.
  intros y Hy. apply H. now right.
Qed.

Lemma sublist_filter {A} (p : A -> bool) l : sublist (filter p l) l.
Proof.
  induction l as [|x l IH]; simpl; [constructor|].
  destruct (p x); now constructor.
Qed.



Lemma sublist_In {A} (l1 l2 : list A) x :
  sublist l1 l2 -> In x l1 -> In x l2.
Proof.
  induction 1; simpl; intuition.
Qed.

Lemma sublist_map {A B} (f : A -> B) l1 l2 :
  sublist l1 l2 -> sublist (map f l1) (map f l2).
Proof.
  induction 1; simpl; now constructor.
Qed.

Lemma sublist_NoDup {A} (l1 l2 : list A) :
  sublist l1 l2 -> NoDup l2 -> NoDup l1.
Proof.
  induction 1 as [|x l1 l2 H IH|x l1 l2 H IH]; intros Hnd.
  - constructor.
  - inversion Hnd; subst. now apply IH.
  - inversion Hnd; subst. constructor; [|now apply IH].
    intros Hin. eapply sublist_In in Hin; eauto.
Qed.


(** ** Facts about the pandas operations *)

Section PandasFacts.
Import Pandas.

Lemma getitem_mask_isin (df : DataFrame CountryRecord) vals :
  getitem_mask df (isin (col continent df) vals)
  = filter (fun ir => existsb (String.eqb (continent (snd ir))) vals) df.
Proof.
  induction df as [|[i r] df IH]; simpl; [reflexivity|].
  rewrite IH. reflexivity.
Qed.

Lemma existsb_eqb_In x l : existsb (String.eqb x) l = true <-> In x l.
Proof.
  rewrite existsb_exists. split.
  - intros [y [Hy E]]. apply String.eqb_eq in E. now subst.
  - intros H. exists x. split; [exact H|apply String.eqb_refl].
Qed.

Lemma unique_from_In seen l x :
  In x (unique_from seen l) <-> In x l /\ ~ In x seen.
Proof.
  revert seen. induction l as [|y l IH]; intros seen; simpl.
  - tauto.
  - destruct (existsb (String.eqb y) seen) eqn:E.
    + apply existsb_eqb_In in E. rewrite IH.
      split; [tauto|]. intros [[->|H] Hn]; tauto.
    + assert (Hy : ~ In y seen).
      { intros H. apply existsb_eqb_In in H. congruence. }
      simpl. rewrite IH. simpl.
      destruct (string_dec y x) as [->|Hne]; tauto.
Qed.

Lemma unique_In (s : Series string) x : In x (unique s) <-> In x (values s).
Proof.
  unfold unique. rewrite unique_from_In. simpl. tauto.
Qed.

Lemma all_continents_In df c :
  In c (all_continents_of df) <-> exists ir, In ir df /\ continent (snd ir) = c.
Proof.
  unfold all_continents_of, Python.sorted.
  split.
  - intros H.
    apply (Permutation_in _ (sort_stable_perm String.leb _)) in H.
    apply unique_In in H. unfold values, col in H.
    rewrite map_map in H. apply in_map_iff in H.
    destruct H as [ir [E Hir]]. now exists ir.
  - intros [ir [Hir E]].
    apply (Permutation_in _ (Permutation_sym (sort_stable_perm String.leb _))).
    apply unique_In. unfold values, col. rewrite map_map.
    apply in_map_iff. now exists ir.
Qed.

Lemma filter_countries_filter df sel :
  filter_countries df sel
  = match sel with
    | [] => df
    | _ :: _ =>
        filter (fun ir => existsb (String.eqb (continent (snd ir))) sel) df
    end.
Proof.
  destruct sel; [reflexivity|]. apply getitem_mask_isin.
Qed.

Lemma filter_countries_sublist df sel : sublist (filter_countries df sel) df.
Proof.
  rewrite filter_countries_filter. destruct sel.
  - induction df; now constructor.
  - apply sublist_filter.
Qed.

Lemma filter_countries_all df :
  filter_countries df (all_continents_of df) = df.
Proof.
  rewrite filter_countries_filter.
  destruct (all_continents_of df) eqn:E; [reflexivity|].
  rewrite <- E. apply filter_all.
  intros ir Hir. apply existsb_eqb_In. apply all_continents_In.
  now exists ir.
Qed.

Lemma map_fst_combine {A B} (l1 : list A) (l2 : list B) :
  List.length l1 = List.length l2 -> map fst (combine l1 l2) = l1.
Proof.
  revert l2. induction l1 as [|a l1 IH]; intros [|b l2]; simpl;
    intros H; try discriminate; [reflexivity|].
  f_equal. apply IH. now injection H.
Qed.

(** Labels are unique in a frame just read, and stay so under the filter. *)
Lemma read_csv_labels {R} (rows : list R) :
  NoDup (map fst (read_csv rows)).
Proof.
  unfold read_csv. rewrite map_fst_combine by apply length_seq.
  apply seq_NoDup.
Qed.

Lemma filter_countries_labels df sel :
  NoDup (map fst df) -> NoDup (map fst (filter_countries df sel)).
Proof.
  apply sublist_NoDup, sublist_map, filter_countries_sublist.
Qed.

Lemma loc_unique {R} (df : DataFrame R) i r :
  NoDup (map fst df) -> In (i, r) df -> loc df i = ok r.
Proof.
  induction df as [|[j r'] df IH]; simpl; intros Hnd Hin; [tauto|].
  inversion Hnd as [|? ? Hj Hnd']; subst.
  destruct Hin as [E|Hin].
  - injection E as -> ->. now rewrite Nat.eqb_refl.
  - destruct (Nat.eqb_spec j i) as [->|_]; [|now apply IH].
    exfalso. apply Hj. apply in_map_iff. now exists (i, r).
Qed.

Lemma loc_found {R} (df : DataFrame R) i :
  In i (map fst df) -> exists r, loc df i = ok r /\ In (i, r) df.
Proof.
  induction df as [|[j r'] df IH]; simpl; intros Hin; [tauto|].
  destruct (Nat.eqb_spec j i) as [->|Hne].
  - exists r'. auto.
  - destruct Hin as [E|Hin]; [contradiction|].
    destruct (IH Hin) as [r [E Hr]]. exists r. auto.
Qed.

Lemma argmax_from_spec best s :
  In (argmax_from best s) (best :: s) /\
  Forall (fun jy => (snd jy <= snd (argmax_from best s))%Q) (best :: s).
Proof.
  revert best. induction s as [|[i x] s IH]; intros best; simpl.
  - split; [now left|]. constructor; [apply Qle_refl|constructor].
  - destruct (Qle_bool x (snd best)) eqn:E.
    + destruct (IH best) as [Hin Hall]. split.
      * destruct Hin as [Hin|Hin]; [now left|now right; right].
      * inversion Hall as [|? ? Hb Hs]; subst.
        constructor; [exact Hb|]. constructor; [|exact Hs].
        simpl. apply Qle_bool_iff in E. eapply Qle_trans; eauto.
    + destruct (IH (i, x)) as [Hin Hall]. split.
      * now right.
      * inversion Hall as [|? ? Hb Hs]; subst.
        constructor; [|now constructor].
        assert (Hlt : (snd best < x)%Q).
        { apply Qnot_le_lt. intros H. apply Qle_bool_iff in H. congruence. }
        eapply Qle_trans; [apply Qlt_le_weak; exact Hlt|exact Hb].
Qed.

Lemma sum_col_filter {R} (f : R -> Q) (p : nat * R -> bool) df acc :
  fold_left Qplus (values (col f (filter p df))) acc
  = fold_left (fun a ir => if p ir then (a + f (snd ir))%Q else a) df acc.
Proof.
  revert acc. induction df as [|ir df IH]; intros acc; simpl; [reflexivity|].
  destruct (p ir); simpl; apply IH.
Qed.

(** The top country of a non-empty frame with unique labels is the
    location of a row that no row exceeds in total cases. *)
Lemma top_country_of_max df :
  df <> [] -> NoDup (map fst df) ->
  exists i r, In (i, r) df /\ top_country_of df = ok (location r) /\
    forall j r', In (j, r') df -> (total_cases r' <= total_cases r)%Q.
Proof.
  intros Hne Hnd. destruct df as [|[i0 r0] df]; [congruence|].
  unfold top_country_of. simpl negb. cbv iota.
  unfold idxmax. simpl col.
  set (s := col total_cases df).
  destruct (argmax_from_spec (i0, total_cases r0) s) as [Hin Hall].
  set (m := argmax_from (i0, total_cases r0) s) in *.
  assert (Hm : exists r, In (fst m, r) ((i0, r0) :: df) /\
                         snd m = total_cases r).
  { destruct Hin as [E|Hin].
    - exists r0. rewrite <- E. simpl. auto.
    - unfold s, col in Hin. apply in_map_iff in Hin.
      destruct Hin as [[j r] [E Hjr]]. exists r. rewrite <- E. simpl. auto. }
  destruct Hm as [r [Hr Ev]].
  exists (fst m), r. split; [exact Hr|]. split.
  - unfold rbind, ok. now rewrite (@loc_unique _ _ _ _ Hnd Hr).
  - intros j r' Hj. rewrite <- Ev.
    rewrite Forall_forall in Hall.
    apply (Hall (j, total_cases r')).
    destruct Hj as [E|Hj]; [left; now injection E as -> ->|right].
    unfold s, col. apply in_map_iff. now exists (j, r').
Qed.

Lemma top_country_of_nonempty df :
  df <> [] ->
  exists i r, In (i, r) df /\ top_country_of df = ok (location r).
Proof.
  intros Hne. destruct df as [|[i0 r0] df]; [congruence|].
  unfold top_country_of. simpl negb. cbv iota.
  unfold idxmax. simpl col.
  set (s := col total_cases df).
  destruct (argmax_from_spec (i0, total_cases r0) s) as [Hin _].
  set (m := argmax_from (i0, total_cases r0) s) in *.
  assert (Hm : In (fst m) (map fst ((i0, r0) :: df))).
  { destruct Hin as [E|Hin].
    - rewrite <- E. now left.
    - right. unfold s, col in Hin. apply in_map_iff in Hin.
      destruct Hin as [[j r] [E Hjr]]. rewrite <- E. simpl.
      apply in_map_iff. now exists (j, r). }
  destruct (@loc_found _ _ _ Hm) as [r [E Hr]].
  exists (fst m), r. split; [exact Hr|].
  unfold rbind, ok. now rewrite E.
Qed.

(** The summary never raises, whatever the frame. *)
Lemma top_country_of_total df : exists c, top_country_of df = ok c.
Proof.
  destruct df as [|ir df']; [now exists "-"|].
  destruct (@top_country_of_nonempty (ir :: df')) as [i [r [_ H]]];
    [discriminate|].
  now exists (location r).
Qed.

Lemma summarize_total df :
  exists c, top_country_of df = ok c /\
    summarize df = ok {| KPI.total_cases := sum (col total_cases df);
                         KPI.total_deaths := sum (col total_deaths df);
                         KPI.avg_vax_rate := mean (col vaccination_rate df);
                         KPI.top_country := c |}.
Proof.
  destruct (top_country_of_total df) as [c E]. exists c.
  split; [exact E|]. unfold summarize. now rewrite E.
Qed.

End PandasFacts.

(** ** Facts about the script monad *)

Create HintDb stateless.

Lemma stateless_ret {A} (a : A) : stateless (ret a).
Proof.
  exists (Done a), []. intros [p r]. unfold ret. simpl.
  now rewrite app_nil_r.
Qed.

Lemma stateless_emit e : stateless (emit e).
Proof. exists (Done tt), [e]. reflexivity. Qed.

Lemma stateless_lift {A} (r : result A) : stateless (lift r).
Proof.
  destruct r as [e|a]; [exists (Raised e), []|exists (Done a), []];
    intros [p els]; unfold lift; simpl; now rewrite app_nil_r.
Qed.

Lemma stateless_bind {A B} (c : Script A) (f : A -> Script B) :
  stateless c -> (forall a, stateless (f a)) -> stateless (bind c f).
Proof.
  intros [o [es Hc]] Hf. destruct o as [a| |e].
  - destruct (Hf a) as [o' [es' Hfa]]. exists o', (es ++ es').
    intros w. unfold bind. rewrite Hc, Hfa. simpl.
    now rewrite app_assoc.
  - exists Stopped, es. intros w. unfold bind. now rewrite Hc.
  - exists (Raised e), es. intros w. unfold bind. now rewrite Hc.
Qed.

#[local] Hint Resolve stateless_ret stateless_emit stateless_lift : stateless.

Ltac stateless_steps :=
  repeat (apply stateless_bind; [|intros ?]); auto with stateless.

Lemma stateless_emit_all es : stateless (emit_all es).
Proof.
  induction es as [|e es IH]; simpl; [apply stateless_ret|].
  apply stateless_bind; [apply stateless_emit|intros _; exact IH].
Qed.

#[local] Hint Resolve stateless_emit_all : stateless.

Lemma stateless_tab2_charts k m df : stateless (tab2_charts k m df).
Proof. unfold tab2_charts. stateless_steps. Qed.

#[local] Hint Resolve stateless_tab2_charts : stateless.

Lemma stateless_dashboard k tables ui : stateless (dashboard k tables ui).
Proof. unfold dashboard. stateless_steps. Qed.

(** The dashboard part, run in any world, appends its [rendering]. *)
Lemma dashboard_rendering k tables ui w :
  dashboard k tables ui w
  = (fst (rendering k tables ui),
     {| process := process w;
        rendered := rendered w ++ snd (rendering k tables ui) |}).
Proof.
  destruct (stateless_dashboard k tables ui) as [o [es H]].
  unfold rendering. rewrite !H. reflexivity.
Qed.

(** ** Facts about the loader *)

Lemma load_data_warm fs w tables :
  cache (process w) = Some tables -> load_data fs w = (Done tables, w).
Proof.
  intros H. unfold load_data, cache_data. now rewrite H.
Qed.

Lemma load_data_cold fs w :
  cache (process w) = None ->
  load_data fs w =
    match ml_global_prediction_csv fs, country_insight_full_csv fs with
    | None, _ => (Raised (FileNotFoundError ml_path), w)
    | Some _, None =>
        (Raised (FileNotFoundError country_path),
         {| process := {| cache := None;
                          reads := reads (process w) ++ [ml_path] |};
            rendered := rendered w |})
    | Some trend, Some rows =>
        (Done (Pandas.read_csv trend, Pandas.read_csv rows),
         {| process :=
              {| cache := Some (Pandas.read_csv trend, Pandas.read_csv rows);
                 reads := (reads (process w) ++ [ml_path]) ++ [country_path] |};
            rendered := rendered w |})
    end.
Proof.
  intros H. destruct w as [[c rd] els]. simpl in H. subst c.
  unfold load_data, cache_data, bind, pd_read_csv, ret. simpl.
  destruct (ml_global_prediction_csv fs), (country_insight_full_csv fs);
    reflexivity.
Qed.

Lemma rerun_warm k fs ui p tables :
  cache p = Some tables ->
  rerun k fs ui p
  = (fst (rendering k tables ui), p,
     PageConfig "COVID-19 Analytics Dashboard" :: Style
       :: snd (rendering k tables ui)).
Proof.
  intros H. unfold rerun, app, bind, try_except_FileNotFoundError.
  simpl. rewrite (@load_data_warm fs _ tables) by exact H.
  rewrite dashboard_rendering. reflexivity.
Qed.

Lemma rerun_cold k fs ui rd :
  rerun k fs ui {| cache := None; reads := rd |} =
    match ml_global_prediction_csv fs, country_insight_full_csv fs with
    | None, _ => (Stopped, {| cache := None; reads := rd |}, error_page)
    | Some _, None =>
        (Stopped, {| cache := None; reads := rd ++ [ml_path] |}, error_page)
    | Some trend, Some rows =>
        let tables := (Pandas.read_csv trend, Pandas.read_csv rows) in
        (fst (rendering k tables ui),
         {| cache := Some tables;
            reads := (rd ++ [ml_path]) ++ [country_path] |},
         PageConfig "COVID-19 Analytics Dashboard" :: Style
           :: snd (rendering k tables ui))
    end.
Proof.
  unfold rerun, app, bind, try_except_FileNotFoundError. simpl.
  rewrite load_data_cold by reflexivity. simpl.
  destruct (ml_global_prediction_csv fs), (country_insight_full_csv fs);
    try reflexivity.
  rewrite dashboard_rendering. reflexivity.
Qed.

Lemma session_warm k fs uis p tables :
  cache p = Some tables -> session k fs uis p = p.
Proof.
  intros H. induction uis as [|ui uis IH]; cbn [session]; [reflexivity|].
  rewrite (rerun_warm _ _ _ _ H). exact IH.
Qed.

Lemma session_missing k fs uis p :
  ml_global_prediction_csv fs = None \/ country_insight_full_csv fs = None ->
  cache p = None -> cache (session k fs uis p) = None.
Proof.
  intros Hfs. revert p.
  induction uis as [|ui uis IH]; intros p Hp; cbn [session]; [exact Hp|].
  apply IH. destruct p as [c rd]. simpl in Hp. subst c.
  rewrite rerun_cold.
  destruct (ml_global_prediction_csv fs), (country_insight_full_csv fs);
    try reflexivity.
  destruct Hfs; discriminate.
Qed.

(** ** Facts about the ranking *)

Lemma StronglySorted_impl {A} (R S : A -> A -> Prop) l :
  (forall x y, R x y -> S x y) -> StronglySorted R l -> StronglySorted S l.
Proof.
  intros HRS. induction 1 as [|x l Hl IH Hx]; constructor; [exact IH|].
  eapply Forall_impl; [|exact Hx]. intros y. apply HRS.
Qed.

Section Ranking.
Variable f : CountryRecord -> Q.

Let key (ir : nat * CountryRecord) : cell := Num (f (snd ir)).
Let leb (x y : nat * CountryRecord) : bool := cell_leb (key x) (key y).

Lemma leb_metric_total : total leb.
Proof.
  intros x y. unfold leb, key. simpl.
  destruct (Qlt_le_dec (f (snd y)) (f (snd x))) as [H|H].
  - right. apply Qle_bool_iff. now apply Qlt_le_weak.
  - left. now apply Qle_bool_iff.
Qed.

Lemma leb_metric_trans : transitive leb.
Proof.
  intros x y z. unfold leb, key. simpl. rewrite !Qle_bool_iff.
  apply Qle_trans.
Qed.




Lemma ranking_stable df :
  ties_in_input_order f df
    (Pandas.head 10 (nargsort kind_stable key false df)).
Proof.
  intros v. unfold Pandas.head, nargsort, kind_stable. cbn [sort_with].
  set (cls := fun ir : nat * CountryRecord => Qeq_bool (f (snd ir)) v).
  destruct (filter_firstn_prefix cls 10
              (rev (sort_stable (fun x y => cell_leb (key x) (key y))
                      (rev df)))) as [rest E].
  exists rest. rewrite <- E. symmetry.
  apply filter_sort_stable_descending.
  intros x y Hx Hy. unfold cls, key in *. simpl.
  apply Qeq_bool_iff in Hx, Hy. apply Qle_bool_iff.
  rewrite Hx, Hy. apply Qle_refl.
Qed.
End Ranking.

Lemma nargsort_descending k `{SortContract k} (f : CountryRecord -> Q)
    (df : Pandas.DataFrame CountryRecord) :
  StronglySorted (fun a b => (f (snd b) <= f (snd a))%Q)
    (nargsort k (fun ir => Num (f (snd ir))) false df).
Proof.
  unfold nargsort.
  eapply StronglySorted_impl;
    [|apply StronglySorted_rev, sort_with_sorted;
      [apply (leb_metric_total f)|apply (leb_metric_trans f)]].
  intros a b. simpl. apply Qle_bool_iff.
Qed.

Lemma nargsort_perm k `{SortContract k} {A} (key : A -> cell) asc
    (items : list A) :
  Permutation (nargsort k key asc items) items.
Proof.
  unfold nargsort. destruct asc.
  - apply sort_with_perm.
  - rewrite <- Permutation_rev, sort_with_perm. symmetry.
    apply Permutation_rev.
Qed.

Lemma metric_column metric :
  In metric metrics ->
  exists f, column metric = Some (fun r => Num (f r)).
Proof.
  intros [<-|[<-|[<-|[]]]].
  - now exists total_cases.
  - now exists total_deaths.
  - now exists vaccination_rate.
Qed.

(** ** Facts about the widgets *)

Lemma multiselect_incl options picks :
  incl (multiselect options options picks) options.
Proof.
  destruct picks as [positions|]; simpl; [|apply incl_refl].
  intros x Hx. apply in_flat_map in Hx. destruct Hx as [i [_ Hi]].
  destruct (nth_error options i) eqn:E; [|contradiction].
  destruct Hi as [<-|[]]. eapply nth_error_In; eauto.
Qed.

Lemma selectbox_In options pick :
  options <> [] -> In (selectbox options pick) options.
Proof.
  intros Hne. unfold selectbox.
  destruct (nth_error options pick) eqn:E.
  - eapply nth_error_In; eauto.
  - destruct options; [congruence|now left].
Qed.

(** * The claims *)

(** C1.  With no continent selected the filter returns the table itself,
    and the four summary statistics are those obtained by selecting every
    continent that occurs in the table. *)
Theorem filter_empty_selection_is_all (df : Pandas.DataFrame CountryRecord) :
  filter_countries df [] = df /\
  filter_countries df (all_continents_of df) = df /\
  summarize (filter_countries df [])
  = summarize (filter_countries df (all_continents_of df)).
Proof.
  split; [reflexivity|].
  split; [apply filter_countries_all|].
  now rewrite filter_countries_all.
Qed.




(** C3 (the code at the empty frame).  Over an empty filtered frame the
    summary does not raise: both sums are 0, the mean is NaN, the top
    country is "-", and no reference line is drawn.  The tiles then show
    "0", "0", "nan%" and "-": the mean is formatted like any other
    float, unlike the top country it has no "-". *)
Theorem summarize_empty :
  summarize [] = ok {| KPI.total_cases := 0; KPI.total_deaths := 0;
                       KPI.avg_vax_rate := None; KPI.top_country := "-" |} /\
  reference_lines [] = [] /\
  rbind (summarize []) (fun s => ok (kpi_tiles s))
  = ok [ Metric "Total Cases (Selected)" "0" "Cumulative";
         Metric "Total Deaths" "0" "Cumulative";
         Metric "Avg Vaccination Rate" "nan%" "Fully Vaccinated Pop";
         Metric "#1 Most Impacted" "-" "Highest Cases" ] /\
  rerun kind_stable
    {| ml_global_prediction_csv := Some demo_trend;
       country_insight_full_csv := Some [] |}
    {| continent_picks := Some []; metric_pick := 0 |} fresh_process
  = (Done tt,
     {| cache := Some (Pandas.read_csv demo_trend, []);
        reads := [ml_path; country_path] |},
     [ PageConfig "COVID-19 Analytics Dashboard"; Style;
       ContinentFilter [] [];
       Metric "Total Cases (Selected)" "0" "Cumulative";
       Metric "Total Deaths" "0" "Cumulative";
       Metric "Avg Vaccination Rate" "nan%" "Fully Vaccinated Pop";
       Metric "#1 Most Impacted" "-" "Highest Cases";
       TrendChart ["2021-01-01"] [10%Q] [7%Q];
       ModelStatus "3";
       Subheader "COVID-19 Distribution Map (All Continents)";
       Choropleth "total_cases" "Reds" [];
       BarChart "total_cases" [];
       BubbleChart [] [] ]).
Proof.
  repeat split.
Qed.

(** C4.  For a selection [c :: cs] of continents over a table just read:
    the filtered frame holds exactly the rows whose continent is
    selected; the summary succeeds; its total of cases is the sum over
    exactly those rows; and, when there is such a row, the top country
    is the location of one that none of them exceeds in total cases.
    On the three records (EU, 100, 5), (EU, 50, 1), (AS, 200, 10):
    selecting EU gives 150 and the first record, selecting nothing
    gives 350 and the third. *)
Theorem filter_then_summarize (rows : list CountryRecord)
    (c : string) (cs : list string) :
  let C := c :: cs in
  let df := Pandas.read_csv rows in
  let df_filtered := filter_countries df C in
  (forall i r, In (i, r) df_filtered <-> In (i, r) df /\ In (continent r) C) /\
  (exists s,
     summarize df_filtered = ok s /\
     KPI.total_cases s = sum_cases_over C df /\
     (df_filtered <> [] ->
      exists i r,
        In (i, r) df_filtered /\ KPI.top_country s = location r /\
        forall j r', In (j, r') df_filtered ->
                     (total_cases r' <= total_cases r)%Q)) /\
  (forall l1 l2 l3,
     let scenario := Pandas.read_csv [ demo_record l1 "EU" 100 5;
                                       demo_record l2 "EU" 50 1;
                                       demo_record l3 "AS" 200 10 ] in
     rbind (summarize (filter_countries scenario ["EU"]))
       (fun s => ok (KPI.total_cases s, KPI.top_country s))
     = ok (150%Q, l1) /\
     rbind (summarize (filter_countries scenario []))
       (fun s => ok (KPI.total_cases s, KPI.top_country s))
     = ok (350%Q, l3)).
Proof.
  intros C df df_filtered.
  split; [|split].
  - intros i r. unfold df_filtered. rewrite filter_countries_filter.
    unfold C. rewrite filter_In. simpl snd. now rewrite existsb_eqb_In.
  - destruct (summarize_total df_filtered) as [top [Htop E]].
    eexists. split; [exact E|]. cbn [KPI.total_cases KPI.top_country].
    split.
    + unfold df_filtered. rewrite filter_countries_filter. unfold C.
      unfold Pandas.sum. now rewrite sum_col_filter.
    + intros Hne.
      destruct (@top_country_of_max df_filtered Hne) as [i [r [Hin [Ht Hmax]]]].
      { apply filter_countries_labels, read_csv_labels. }
      exists i, r. split; [exact Hin|]. split; [|exact Hmax].
      rewrite Ht in Htop. now injection Htop.
  - intros l1 l2 l3 scenario. split; reflexivity.
Qed.

Lemma filter_then_summarize_witness :
  exists i r,
    In (i, r) (filter_countries (Pandas.read_csv demo_rows) ["EU"]) /\
    location r = "E1" /\
    forall j r',
      In (j, r') (filter_countries (Pandas.read_csv demo_rows) ["EU"]) ->
      (total_cases r' <= total_cases r)%Q.
Proof.
  destruct (filter_then_summarize demo_rows "EU" [])
    as [_ [[s [E [_ H]]] _]].
  destruct H as [i [r [Hin [Ht Hmax]]]]; [discriminate|].
  exists i, r. split; [exact Hin|]. split; [|exact Hmax].
  rewrite <- Ht. vm_compute in E. now injection E as <-.
Defined.

(** C5.  Loader contract, over any sequence [uis] of earlier interactions
    of a process that started with an empty memo.  If one of the two
    files is absent, the memo is still empty, the call of [load_data]
    raises [FileNotFoundError], and the run stops having rendered the
    page configuration and the error box only.  If both are present,
    then after the first run and any number of further ones the memo
    holds the two tables, each file has been read exactly once, and a
    call of [load_data] returns the memoised tables and leaves the
    process (and so the read log) as it is. *)
Theorem load_data_contract (k : SortKind) (fs : Files)
    (uis : list UserInput) (ui : UserInput) :
  (ml_global_prediction_csv fs = None \/ country_insight_full_csv fs = None ->
   let p := session k fs uis fresh_process in
   cache p = None /\
   (exists path w',
      load_data fs {| process := p; rendered := [] |}
      = (Raised (FileNotFoundError path), w')) /\
   fst (fst (rerun k fs ui p)) = Stopped /\
   snd (rerun k fs ui p) = error_page)
  /\
  (forall trend rows,
   ml_global_prediction_csv fs = Some trend ->
   country_insight_full_csv fs = Some rows ->
   let tables := (Pandas.read_csv trend, Pandas.read_csv rows) in
   let p := session k fs (ui :: uis) fresh_process in
   cache p = Some tables /\
   reads p = [ml_path; country_path] /\
   forall els,
     load_data fs {| process := p; rendered := els |}
     = (Done tables, {| process := p; rendered := els |})).
Proof.
  split.
  - intros Hfs p.
    assert (Hp : cache p = None) by (now apply session_missing).
    destruct p as [c rd]. simpl in Hp. subst c.
    split; [reflexivity|].
    rewrite rerun_cold, load_data_cold by reflexivity.
    destruct (ml_global_prediction_csv fs), (country_insight_full_csv fs);
      try (destruct Hfs; discriminate); simpl; eauto.
  - intros trend rows Hml Hc tables p.
    assert (E : p = {| cache := Some tables;
                       reads := [ml_path; country_path] |}).
    { unfold p. cbn [session]. unfold fresh_process.
      rewrite rerun_cold, Hml, Hc. cbn [fst snd].
      now rewrite (@session_warm k fs uis _ tables). }
    rewrite E. split; [reflexivity|]. split; [reflexivity|].
    intros els. now apply load_data_warm.
Qed.

Lemma load_data_contract_witness :
  (let fs := {| ml_global_prediction_csv := Some demo_trend;
                country_insight_full_csv := None |} in
   snd (rerun kind_stable fs demo_ui
          (session kind_stable fs [demo_ui] fresh_process)) = error_page)
  /\
  (let fs := {| ml_global_prediction_csv := Some demo_trend;
                country_insight_full_csv := Some demo_rows |} in
   reads (session kind_stable fs [demo_ui; demo_ui; demo_ui] fresh_process)
   = [ml_path; country_path]).
Proof.
  split.
  - intros fs.
    refine (proj2 (proj2 (proj2
      (proj1 (load_data_contract kind_stable fs [demo_ui] demo_ui) _)))).
    right. reflexivity.
  - intros fs.
    refine (proj1 (proj2
      (proj2 (load_data_contract kind_stable fs [demo_ui; demo_ui] demo_ui)
         demo_trend demo_rows _ _))); reflexivity.
Defined.

(** C7.  Running the script twice in a row with the same files and the
    same widget state ends the same way and renders the same elements,
    whatever the process state before; and in a process whose memo holds
    the tables, the outcome and the rendered elements are a function of
    the tables and the widget state alone: neither the read log nor the
    files in the folder enter. *)
Theorem rerun_idempotent (k : SortKind) (fs : Files) (ui : UserInput)
    (p : Process) :
  (let r1 := rerun k fs ui p in
   let r2 := rerun k fs ui (snd (fst r1)) in
   fst (fst r2) = fst (fst r1) /\ snd r2 = snd r1)
  /\
  (forall tables fs' log log',
     let r := rerun k fs ui {| cache := Some tables; reads := log |} in
     let r' := rerun k fs' ui {| cache := Some tables; reads := log' |} in
     fst (fst r) = fst (fst r') /\ snd r = snd r' /\
     (fst (fst r), snd r)
     = (fst (rendering k tables ui),
        PageConfig "COVID-19 Analytics Dashboard" :: Style
          :: snd (rendering k tables ui))).
Proof.
  split.
  - destruct p as [[tables|] rd].
    + rewrite (@rerun_warm k fs ui _ tables) by reflexivity.
      cbn [fst snd]. rewrite (@rerun_warm k fs ui _ tables) by reflexivity.
      split; reflexivity.
    + rewrite rerun_cold.
      destruct (ml_global_prediction_csv fs) as [trend|] eqn:Hml;
        [destruct (country_insight_full_csv fs) as [rows|] eqn:Hc|];
        cbn [fst snd].
      * rewrite (@rerun_warm k fs ui _
                   (Pandas.read_csv trend, Pandas.read_csv rows))
          by reflexivity.
        split; reflexivity.
      * rewrite rerun_cold, Hml, Hc. split; reflexivity.
      * rewrite rerun_cold, Hml. split; reflexivity.
  - intros tables fs' log log'.
    rewrite (@rerun_warm k fs ui _ tables) by reflexivity.
    rewrite (@rerun_warm k fs' ui _ tables) by reflexivity.
    repeat split.
Qed.

(** C8.  The filter only selects: the filtered frame is a sublist of the
    table, so every row it holds is a row of the table with its label
    and all its fields, in the table's order; and a run over a memoised
    table leaves the process, and with it the table, exactly as it was,
    whatever the continent selection. *)
Theorem filter_leaves_table_unchanged (k : SortKind) (fs : Files)
    (ui : UserInput) (tables : Tables) (log : list string)
    (selected_continents : list string) :
  sublist (filter_countries (snd tables) selected_continents) (snd tables) /\
  snd (fst (rerun k fs ui {| cache := Some tables; reads := log |}))
  = {| cache := Some tables; reads := log |}.
Proof.
  split.
  - apply filter_countries_sublist.
  - now rewrite (@rerun_warm k fs ui _ tables).
Qed.

(** C9.  The continent filter offers the continents of the table, an
    empty selection keeps the whole table, so over a non-empty table the
    filtered frame is non-empty for every state of the filter widget;
    the guards on emptiness then take their main branch: the top country
    is the location of a row of the frame and both reference lines are
    drawn. *)
Theorem filtered_frame_nonempty (df_countries : Pandas.DataFrame CountryRecord)
    (picks : option (list nat)) :
  df_countries <> [] ->
  let all_continents := all_continents_of df_countries in
  let selected_continents := multiselect all_continents all_continents picks in
  let df_filtered := filter_countries df_countries selected_continents in
  Pandas.empty df_filtered = false /\
  (exists i r, In (i, r) df_filtered /\
               top_country_of df_filtered = ok (location r)) /\
  reference_lines df_filtered
  = [ HLine (Pandas.mean (Pandas.col mortality_rate df_filtered))
        "Avg Mortality";
      VLine (Pandas.mean (Pandas.col vaccination_rate df_filtered))
        "Avg Vax Rate" ].
Proof.
  intros Hne all_continents selected_continents df_filtered.
  assert (Hf : df_filtered <> []).
  { unfold df_filtered. rewrite filter_countries_filter.
    destruct selected_continents as [|c cs] eqn:E; [exact Hne|].
    assert (Hc : In c all_continents).
    { apply (@multiselect_incl all_continents picks).
      fold selected_continents. rewrite E. now left. }
    apply all_continents_In in Hc. destruct Hc as [ir [Hir Hcont]].
    intros Hnil.
    assert (Hin : In ir (filter
              (fun ir => existsb (String.eqb (continent (snd ir))) (c :: cs))
              df_countries)).
    { apply filter_In. split; [exact Hir|].
      apply existsb_eqb_In. rewrite Hcont. now left. }
    rewrite Hnil in Hin. contradiction. }
  split; [|split].
  - destruct df_filtered; [congruence|reflexivity].
  - now apply top_country_of_nonempty.
  - unfold reference_lines. destruct df_filtered; [congruence|reflexivity].
Qed.

Lemma filtered_frame_nonempty_witness :
  Pandas.empty
    (filter_countries (Pandas.read_csv demo_rows)
       (multiselect (all_continents_of (Pandas.read_csv demo_rows))
          (all_continents_of (Pandas.read_csv demo_rows)) (Some [1%nat])))
  = false.
Proof.
  refine (proj1 (@filtered_frame_nonempty (Pandas.read_csv demo_rows)
                   (Some [1%nat]) _)).
  discriminate.
Defined.

(** C10.  The model status reads the last row of the trend table without
    a guard: on a table that ends with a row it is that row's smoothed
    new cases minus its prediction, on an empty table the positional
    access raises [IndexError], and a run over an empty trend table ends
    with that exception. *)
Theorem model_status_last_row :
  (forall df i r,
     model_status (df ++ [(i, r)])
     = ok (new_cases_smoothed r - prediction r)%Q) /\
  model_status []
  = throw (IndexError "single positional indexer is out-of-bounds") /\
  (forall k rows ui,
     fst (fst (rerun k {| ml_global_prediction_csv := Some [];
                          country_insight_full_csv := Some rows |}
                 ui fresh_process))
     = Raised (IndexError "single positional indexer is out-of-bounds")).
Proof.
  split; [|split; [reflexivity|]].
  - intros df i r. unfold model_status.
    assert (E : Pandas.iloc_last (df ++ [(i, r)]) = ok r).
    { induction df as [|[j r'] df IH]; [reflexivity|].
      simpl. rewrite IH. destruct (df ++ [(i, r)]) eqn:D; [|reflexivity].
      now destruct df. }
    now rewrite E.
  - intros k rows ui. unfold fresh_process. rewrite rerun_cold.
    cbn [fst snd ml_global_prediction_csv country_insight_full_csv].
    unfold rendering, dashboard, bind. cbn [fst snd emit].
    destruct (summarize_total
                (filter_countries (Pandas.read_csv rows)
                   (multiselect (all_continents_of (Pandas.read_csv rows))
                      (all_continents_of (Pandas.read_csv rows))
                      (continent_picks ui)))) as [c [_ E]].
    rewrite E. reflexivity.
Qed.

(** * Further properties of the script *)

(** ** The order on strings *)

Lemma string_leb_cases a b :
  String.leb a b = true <-> a = b \/ OrderedTypeEx.String_as_OT.lt a b.
Proof.
  unfold String.leb.
  pose proof (OrderedTypeEx.String_as_OT.cmp_eq a b) as He.
  pose proof (OrderedTypeEx.String_as_OT.cmp_lt a b) as Hl.
  unfold OrderedTypeEx.String_as_OT.cmp in *.
  destruct (String.compare a b); split; intros H; try discriminate; auto.
  - left. now apply He.
  - right. now apply Hl.
  - destruct H as [H|H]; [apply He in H|apply Hl in H]; discriminate.
Qed.

Lemma string_leb_trans : transitive String.leb.
Proof.
  intros a b c. rewrite !string_leb_cases.
  intros [->|H1] [->|H2]; auto.
  right. eapply OrderedTypeEx.String_as_OT.lt_trans; eauto.
Qed.

Lemma string_ltb_leb a b :
  String.leb a b = true -> a <> b -> String.ltb a b = true.
Proof.
  unfold String.leb, String.ltb. intros H Hne.
  destruct (String.compare a b) eqn:E; try discriminate; [|reflexivity].
  apply String.compare_eq_iff in E. contradiction.
Qed.

Lemma StronglySorted_strict {A} (le lt : A -> A -> Prop) l :
  (forall x y, le x y -> x <> y -> lt x y) ->
  StronglySorted le l -> NoDup l -> StronglySorted lt l.
Proof.
  intros Hlt. induction 1 as [|x l Hl IH Hx]; intros Hnd; constructor.
  - apply IH. now inversion Hnd.
  - inversion Hnd as [|? ? Hin _]; subst.
    rewrite Forall_forall in *. intros y Hy. apply Hlt; [now apply Hx|].
    intros ->. contradiction.
Qed.

Lemma unique_from_NoDup seen l : NoDup (Pandas.unique_from seen l).
Proof.
  revert seen. induction l as [|x l IH]; intros seen; simpl; [constructor|].
  destruct (existsb (String.eqb x) seen); [apply IH|].
  constructor; [|apply IH].
  rewrite unique_from_In. simpl. tauto.
Qed.

(** X1.  The options of the continent filter are exactly the continents
    that occur in the table, each once, in strictly ascending order. *)
Theorem all_continents_sorted_distinct
    (df_countries : Pandas.DataFrame CountryRecord) :
  StronglySorted (fun a b => String.ltb a b = true)
    (all_continents_of df_countries) /\
  NoDup (all_continents_of df_countries) /\
  forall c, In c (all_continents_of df_countries) <->
            exists i r, In (i, r) df_countries /\ continent r = c.
Proof.
  assert (Hnd : NoDup (all_continents_of df_countries)).
  { unfold all_continents_of, Python.sorted.
    eapply Permutation_NoDup;
      [symmetry; apply sort_stable_perm|apply unique_from_NoDup]. }
  split; [|split; [exact Hnd|]].
  - apply StronglySorted_strict with (le := fun a b => String.leb a b = true);
      [apply string_ltb_leb| |exact Hnd].
    unfold all_continents_of, Python.sorted.
    apply sort_stable_sorted.
    + intros a b. apply String.leb_total.
    + apply string_leb_trans.
  - intros c. rewrite all_continents_In. split.
    + intros [[i r] [H E]]. now exists i, r.
    + intros [i [r [H E]]]. now exists (i, r).
Qed.

(** X2.  The filter depends on the selection as a set only: two
    selections with the same members, in whatever order and however
    often repeated, keep the same rows. *)
Theorem filter_countries_same_members
    (df_countries : Pandas.DataFrame CountryRecord)
    (selected selected' : list string) :
  (forall c, In c selected <-> In c selected') ->
  filter_countries df_countries selected
  = filter_countries df_countries selected'.
Proof.
  intros H. rewrite !filter_countries_filter.
  destruct selected as [|c cs], selected' as [|c' cs']; try reflexivity.
  - exfalso. apply (H c'). now left.
  - exfalso. apply (H c). now left.
  - apply filter_ext. intros ir.
    apply eq_true_iff_eq. rewrite !existsb_eqb_In. apply H.
Qed.

Lemma filter_countries_same_members_witness :
  filter_countries (Pandas.read_csv demo_rows) ["EU"; "AS"]
  = filter_countries (Pandas.read_csv demo_rows) ["AS"; "EU"; "EU"].
Proof.
  apply filter_countries_same_members.
  intros c. simpl. tauto.
Defined.

(** ** Disjoint selections *)

(** X3.  Disjoint selections split the rows: for two non-empty
    selections without a common continent, the rows kept by both
    together are the rows kept by the one and the rows kept by the
    other, each once. *)
Theorem rows_of_disjoint_selections
    (df_countries : Pandas.DataFrame CountryRecord)
    (selected selected' : list string) :
  selected <> [] -> selected' <> [] ->
  (forall c, In c selected -> ~ In c selected') ->
  Permutation
    (filter_countries df_countries (selected ++ selected'))
    (filter_countries df_countries selected
     ++ filter_countries df_countries selected').
Proof.
  intros Hne Hne' Hdisj. rewrite !filter_countries_filter.
  destruct selected as [|c cs]; [congruence|].
  destruct selected' as [|c' cs']; [congruence|].
  change ((c :: cs) ++ c' :: cs') with (c :: (cs ++ c' :: cs')).
  cbv iota.
  change (c :: (cs ++ c' :: cs')) with ((c :: cs) ++ c' :: cs').
  induction df_countries as [|ir df IH]; [constructor|].
  cbn [filter]. rewrite existsb_app.
  destruct (existsb (String.eqb (continent (snd ir))) (c :: cs)) eqn:E1;
    destruct (existsb (String.eqb (continent (snd ir))) (c' :: cs')) eqn:E2;
    cbn [orb]; cbv iota.
  - apply existsb_eqb_In in E1. apply existsb_eqb_In in E2.
    exfalso. exact (Hdisj _ E1 E2).
  - cbn [app]. now constructor.
  - apply Permutation_cons_app. exact IH.
  - exact IH.
Qed.

Lemma rows_of_disjoint_selections_witness :
  Permutation
    (filter_countries (Pandas.read_csv demo_rows) (["AS"] ++ ["EU"]))
    (filter_countries (Pandas.read_csv demo_rows) ["AS"]
     ++ filter_countries (Pandas.read_csv demo_rows) ["EU"]).
Proof.
  apply rows_of_disjoint_selections; try discriminate.
  intros c [<-|[]] [E|[]]. discriminate E.
Defined.

(** ** The top country and the ranking *)

Lemma StronglySorted_app_inv {A} (R : A -> A -> Prop) l1 l2 :
  StronglySorted R (l1 ++ l2) ->
  forall x y, In x l1 -> In y l2 -> R x y.
Proof.
  induction l1 as [|a l1 IH]; simpl; intros H x y Hx Hy; [contradiction|].
  inversion H as [|? ? Hs Ha]; subst.
  destruct Hx as [<-|Hx]; [|now apply IH].
  rewrite Forall_forall in Ha. apply Ha, in_or_app. now right.
Qed.

(** [argmax_from] returns the first of the largest entries. *)
Lemma argmax_from_first best s :
  exists s1 s2,
    best :: s = s1 ++ Pandas.argmax_from best s :: s2 /\
    (forall x, In x s1 -> (snd x < snd (Pandas.argmax_from best s))%Q) /\
    (forall x, In x s2 -> (snd x <= snd (Pandas.argmax_from best s))%Q).
Proof.
  revert best. induction s as [|[i x] s IH]; intros best.
  - exists [], []. simpl. repeat split; intros ? [].
  - simpl Pandas.argmax_from.
    destruct (Qle_bool x (snd best)) eqn:E.
    + apply Qle_bool_iff in E.
      destruct (IH best) as [s1 [s2 [Hd [H1 H2]]]].
      destruct s1 as [|b s1]; simpl in Hd; injection Hd as Hb Hs.
      * exists [], ((i, x) :: s2). rewrite <- Hb in *. subst s.
        repeat split; [intros ? []|].
        intros y [<-|Hy]; [exact E|now apply H2].
      * subst b. exists (best :: (i, x) :: s1), s2.
        split; [simpl; do 2 f_equal; exact Hs|].
        split; [|exact H2].
        intros y [<-|[<-|Hy]].
        -- apply H1. now left.
        -- eapply Qle_lt_trans; [exact E|]. apply H1. now left.
        -- apply H1. now right.
    + assert (Hlt : (snd best < x)%Q).
      { apply Qnot_le_lt. intros H. apply Qle_bool_iff in H. congruence. }
      destruct (IH (i, x)) as [s1 [s2 [Hd [H1 H2]]]].
      exists (best :: s1), s2. simpl. rewrite Hd.
      repeat split; [|exact H2].
      intros y [<-|Hy]; [|now apply H1].
      destruct s1 as [|b s1]; simpl in Hd; injection Hd as Hb Hs.
      * now rewrite <- Hb.
      * subst b. eapply Qlt_trans; [exact Hlt|].
        apply (H1 (i, x)). now left.
Qed.

Lemma top_country_first_max (df : Pandas.DataFrame CountryRecord) :
  df <> [] -> NoDup (map fst df) ->
  exists before i r after,
    df = before ++ (i, r) :: after /\
    top_country_of df = ok (location r) /\
    (forall j r', In (j, r') before -> (total_cases r' < total_cases r)%Q) /\
    (forall j r', In (j, r') after -> (total_cases r' <= total_cases r)%Q).
Proof.
  intros Hne Hnd. destruct df as [|[i0 r0] df]; [congruence|].
  unfold top_country_of. simpl negb. cbv iota.
  unfold Pandas.idxmax. simpl Pandas.col.
  destruct (argmax_from_first (i0, total_cases r0)
              (Pandas.col total_cases df)) as [s1 [s2 [Hd [H1 H2]]]].
  set (m := Pandas.argmax_from (i0, total_cases r0)
              (Pandas.col total_cases df)) in *.
  change ((i0, total_cases r0) :: Pandas.col total_cases df)
    with (Pandas.col total_cases ((i0, r0) :: df)) in Hd.
  unfold Pandas.col in Hd.
  apply map_eq_app in Hd. destruct Hd as [before [rest [Hdf [Hb Hr]]]].
  destruct rest as [|[i r] after]; [discriminate|].
  simpl in Hr. injection Hr as Hm Ha.
  exists before, i, r, after. split; [exact Hdf|].
  assert (Hi : fst m = i) by (now rewrite <- Hm).
  assert (Hv : snd m = total_cases r) by (now rewrite <- Hm).
  split; [|split].
  - unfold rbind, ok. rewrite Hi.
    rewrite (@loc_unique _ ((i0, r0) :: df) i r Hnd); [reflexivity|].
    rewrite Hdf. apply in_or_app. right. now left.
  - intros j r' Hj. rewrite <- Hv.
    apply (H1 (j, total_cases r')). rewrite <- Hb.
    apply in_map_iff. now exists (j, r').
  - intros j r' Hj. rewrite <- Hv.
    apply (H2 (j, total_cases r')). rewrite <- Ha.
    apply in_map_iff. now exists (j, r').
Qed.

(** X5.  Ties for the top country go to the row that comes first: the
    filtered frame splits around the row whose location is shown, every
    row before it has strictly fewer total cases and no row after it
    has more. *)
Theorem top_country_is_first_maximum (rows : list CountryRecord)
    (selected_continents : list string) :
  let df_filtered :=
    filter_countries (Pandas.read_csv rows) selected_continents in
  df_filtered <> [] ->
  exists before i r after,
    df_filtered = before ++ (i, r) :: after /\
    top_country_of df_filtered = ok (location r) /\
    (forall j r', In (j, r') before -> (total_cases r' < total_cases r)%Q) /\
    (forall j r', In (j, r') after -> (total_cases r' <= total_cases r)%Q).
Proof.
  intros df_filtered Hne. apply top_country_first_max; [exact Hne|].
  apply filter_countries_labels, read_csv_labels.
Qed.

Lemma top_country_is_first_maximum_witness :
  exists before i r after,
    filter_countries
      (Pandas.read_csv [demo_record "E1" "EU" 7 0; demo_record "A1" "AS" 9 0;
                        demo_record "E2" "EU" 9 0]) []
    = before ++ (i, r) :: after /\
    top_country_of
      (filter_countries
         (Pandas.read_csv [demo_record "E1" "EU" 7 0;
                           demo_record "A1" "AS" 9 0;
                           demo_record "E2" "EU" 9 0]) [])
    = ok (location r) /\
    (forall j r', In (j, r') before -> (total_cases r' < total_cases r)%Q) /\
    (forall j r', In (j, r') after -> (total_cases r' <= total_cases r)%Q).
Proof.
  apply (@top_country_is_first_maximum
           [demo_record "E1" "EU" 7 0; demo_record "A1" "AS" 9 0;
            demo_record "E2" "EU" 9 0] []).
  discriminate.
Defined.

(** X6.  The ranking holds the largest rows: the rows it leaves out,
    together with the ranked ones, make up the filtered frame, no row
    left out exceeds a ranked row in the metric, and with at most ten
    filtered rows none is left out. *)
Theorem top10_dominates_rest (k : SortKind) (contract : SortContract k)
    (metric : string) (df_filtered : Pandas.DataFrame CountryRecord) :
  In metric metrics ->
  exists (f : CountryRecord -> Q) ranked rest,
    column metric = Some (fun r => Num (f r)) /\
    top10 k metric df_filtered = ok ranked /\
    Permutation (ranked ++ rest) df_filtered /\
    (forall a b, In a ranked -> In b rest -> (f (snd b) <= f (snd a))%Q) /\
    ((List.length df_filtered <= 10)%nat -> rest = []).
Proof.
  intros Hm. destruct (metric_column Hm) as [f Hf].
  exists f. unfold top10, sort_values. rewrite Hf. cbn [rbind ok].
  set (sorted := nargsort k (fun ir => Num (f (snd ir))) false df_filtered).
  exists (Pandas.head 10 sorted), (skipn 10 sorted).
  split; [reflexivity|]. split; [reflexivity|].
  unfold Pandas.head. split; [|split].
  - rewrite firstn_skipn. now apply nargsort_perm.
  - apply StronglySorted_app_inv. rewrite firstn_skipn.
    now apply nargsort_descending.
  - intros Hlen. apply skipn_all2.
    unfold sorted. now rewrite (Permutation_length (nargsort_perm _ _ _)).
Qed.

Lemma top10_dominates_rest_witness :
  exists (f : CountryRecord -> Q) ranked rest,
    column "vaccination_rate" = Some (fun r => Num (f r)) /\
    top10 kind_stable "vaccination_rate" (Pandas.read_csv demo_rows)
    = ok ranked /\
    Permutation (ranked ++ rest) (Pandas.read_csv demo_rows) /\
    (forall a b, In a ranked -> In b rest -> (f (snd b) <= f (snd a))%Q) /\
    ((List.length (Pandas.read_csv demo_rows) <= 10)%nat -> rest = []).
Proof.
  apply (@top10_dominates_rest kind_stable kind_stable_contract
           "vaccination_rate" (Pandas.read_csv demo_rows)).
  simpl. auto.
Defined.

Lemma top10_total_cases k (df : Pandas.DataFrame CountryRecord) :
  top10 k "total_cases" df
  = ok (Pandas.head 10
          (nargsort k (fun ir => Num (total_cases (snd ir))) false df)).
Proof. reflexivity. Qed.

(** X7.  The tile and the bar chart agree on the leader: over a
    non-empty filtered frame, the row whose location the "#1 Most
    Impacted" tile shows has the same total cases as the first row of
    the ranking by total cases, whatever the sort kind; with a stable
    kind it is the same row. *)
Theorem top_country_leads_ranking (k : SortKind) (contract : SortContract k)
    (rows : list CountryRecord) (selected_continents : list string) :
  let df_filtered :=
    filter_countries (Pandas.read_csv rows) selected_continents in
  df_filtered <> [] ->
  exists i r,
    In (i, r) df_filtered /\
    top_country_of df_filtered = ok (location r) /\
    (exists first others,
       top10 k "total_cases" df_filtered = ok (first :: others) /\
       (total_cases (snd first) == total_cases r)%Q) /\
    (exists others,
       top10 kind_stable "total_cases" df_filtered = ok ((i, r) :: others)).
Proof.
  intros df Hne.
  destruct (@top_country_first_max df Hne)
    as [before [i [r [after [Hdf [Htop [Hbefore Hafter]]]]]]].
  { apply filter_countries_labels, read_csv_labels. }
  assert (Hin : In (i, r) df).
  { rewrite Hdf. apply in_or_app. right. now left. }
  assert (Hmax : forall j r', In (j, r') df ->
                              (total_cases r' <= total_cases r)%Q).
  { intros j r' Hj. rewrite Hdf in Hj. apply in_app_or in Hj.
    destruct Hj as [Hj|[Hj|Hj]].
    - apply Qlt_le_weak. eapply Hbefore; eauto.
    - injection Hj as _ <-. apply Qle_refl.
    - eapply Hafter; eauto. }
  assert (Hlead : forall k', SortContract k' ->
            exists first others,
              top10 k' "total_cases" df = ok (first :: others) /\
              (total_cases (snd first) == total_cases r)%Q).
  { intros k' Hk'. rewrite top10_total_cases.
    pose proof (@nargsort_perm k' Hk' _
                  (fun ir : nat * CountryRecord => Num (total_cases (snd ir)))
                  false df) as Hp.
    pose proof (@nargsort_descending k' Hk' total_cases df) as Hs.
    destruct (nargsort k' (fun ir => Num (total_cases (snd ir))) false df)
      as [|first tl] eqn:E.
    - apply Permutation_nil in Hp. congruence.
    - exists first, (firstn 9 tl). split; [reflexivity|].
      apply Qle_antisym.
      + destruct first as [j r']. apply (Hmax j).
        apply (Permutation_in _ Hp). now left.
      + apply (Permutation_in _ (Permutation_sym Hp)) in Hin.
        destruct Hin as [->|Hin]; [apply Qle_refl|].
        inversion Hs as [|? ? _ Hall]; subst.
        rewrite Forall_forall in Hall. exact (Hall _ Hin). }
  exists i, r. split; [exact Hin|]. split; [exact Htop|].
  split; [now apply Hlead|].
  destruct (Hlead kind_stable kind_stable_contract)
    as [first [others [Hrank Hv]]].
  exists others. rewrite Hrank. do 2 f_equal.
  assert (Hties : ties_in_input_order total_cases df (first :: others)).
  { rewrite top10_total_cases in Hrank. injection Hrank as <-.
    apply ranking_stable. }
  destruct (Hties (total_cases r)) as [rest E].
  rewrite Hdf in E. rewrite filter_app in E.
  assert (Hnone : filter
            (fun ir : nat * CountryRecord =>
               Qeq_bool (total_cases (snd ir)) (total_cases r)) before = []).
  { clear E Hdf. induction before as [|[j r'] before IH]; [reflexivity|].
    simpl. assert (Hlt := Hbefore j r' (or_introl eq_refl)).
    destruct (Qeq_bool (total_cases r') (total_cases r)) eqn:Eq.
    - apply Qeq_bool_iff in Eq. rewrite Eq in Hlt.
      exfalso. exact (Qlt_irrefl _ Hlt).
    - apply IH. intros j' r'' H'. apply (Hbefore j'). now right. }
  rewrite Hnone in E. cbn [app filter snd] in E.
  rewrite (proj2 (Qeq_bool_iff _ _) (Qeq_refl (total_cases r))) in E.
  rewrite (proj2 (Qeq_bool_iff _ _) Hv) in E.
  cbn [app] in E. now injection E.
Qed.

Lemma top_country_leads_ranking_witness :
  exists i r,
    In (i, r) (filter_countries (Pandas.read_csv demo_rows) ["EU"]) /\
    top_country_of (filter_countries (Pandas.read_csv demo_rows) ["EU"])
    = ok (location r) /\
    (exists first others,
       top10 kind_stable "total_cases"
         (filter_countries (Pandas.read_csv demo_rows) ["EU"])
       = ok (first :: others) /\
       (total_cases (snd first) == total_cases r)%Q) /\
    (exists others,
       top10 kind_stable "total_cases"
         (filter_countries (Pandas.read_csv demo_rows) ["EU"])
       = ok ((i, r) :: others)).
Proof.
  apply (@top_country_leads_ranking kind_stable kind_stable_contract
           demo_rows ["EU"]).
  discriminate.
Defined.

(** ** Whole runs *)

Lemma iloc_last_nonempty {R} (df : Pandas.DataFrame R) :
  df <> [] -> exists r, Pandas.iloc_last df = ok r.
Proof.
  induction df as [|[i r] df IH]; intros Hne; [congruence|].
  destruct df as [|ir df]; [now exists r|].
  destruct IH as [r' E]; [discriminate|].
  exists r'. simpl in *. exact E.
Qed.

Lemma read_csv_nonempty {R} (rows : list R) :
  rows <> [] -> Pandas.read_csv rows <> [].
Proof. destruct rows; [congruence|discriminate]. Qed.

Lemma charts_built k metric df :
  In metric metrics ->
  exists fig_map ranked fig_bar,
    choropleth df metric = ok fig_map /\
    top10 k metric df = ok ranked /\
    bar_chart ranked metric = ok fig_bar.
Proof.
  intros Hm. destruct (metric_column Hm) as [f Hf].
  unfold choropleth, top10, sort_values, bar_chart. rewrite Hf.
  cbn [rbind ok]. do 3 eexists. repeat split.
Qed.

Lemma bind_emit {B} e (f : unit -> Script B) w :
  bind (emit e) f w
  = f tt {| process := process w; rendered := rendered w ++ [e] |}.
Proof. reflexivity. Qed.

Lemma bind_lift_ok {A B} (a : A) (f : A -> Script B) w :
  bind (lift (ok a)) f w = f a w.
Proof. reflexivity. Qed.

Lemma bind_lift_throw {A B} e (f : A -> Script B) w :
  bind (lift (throw e)) f w = (Raised e, w).
Proof. reflexivity. Qed.

Lemma emit_all_run es w :
  emit_all es w
  = (Done tt, {| process := process w; rendered := rendered w ++ es |}).
Proof.
  revert w. induction es as [|e es IH]; intros [p r]; simpl.
  - unfold ret. now rewrite app_nil_r.
  - rewrite bind_emit, IH. simpl. now rewrite <- app_assoc.
Qed.

Lemma bind_emit_all {B} es (f : unit -> Script B) w :
  bind (emit_all es) f w
  = f tt {| process := process w; rendered := rendered w ++ es |}.
Proof. unfold bind. now rewrite emit_all_run. Qed.

Lemma bind_tab2_charts {B} k metric df (f : unit -> Script B) w
    fig_map ranked fig_bar :
  choropleth df metric = ok fig_map ->
  top10 k metric df = ok ranked ->
  bar_chart ranked metric = ok fig_bar ->
  bind (tab2_charts k metric df) f w
  = f tt {| process := process w;
            rendered := rendered w ++ [fig_map; fig_bar] |}.
Proof.
  intros Em Er Eb. unfold tab2_charts.
  unfold bind at 1.
  rewrite Em, bind_lift_ok, bind_emit, Er, bind_lift_ok, Eb, bind_lift_ok.
  unfold emit. simpl. now rewrite <- app_assoc.
Qed.

Lemma read_csv_rows {R} (rows : list R) :
  map snd (Pandas.read_csv rows) = rows.
Proof.
  unfold Pandas.read_csv. generalize 0%nat.
  induction rows as [|r rows IH]; intros n; [reflexivity|].
  simpl. f_equal. apply IH.
Qed.

Lemma bubble_chart_built (df : Pandas.DataFrame CountryRecord) :
  (forall i r, In (i, r) df -> (0 <= population r)%Z) ->
  bubble_chart df
  = ok (BubbleChart
          (map (fun ir => let r := snd ir in
                          (vaccination_rate r, mortality_rate r, population r,
                           continent r, location r)) df)
          (reference_lines df)).
Proof.
  intros H. unfold bubble_chart.
  assert (E : forallb (fun ir : nat * CountryRecord =>
                         (0 <=? population (snd ir))%Z) df = true).
  { apply forallb_forall. intros [i r] Hin. apply Z.leb_le.
    now apply (H i). }
  now rewrite E.
Qed.

(** X8.  With both files present, a trend table of at least one row and
    per-country records that hold every cell (as the record type has
    them) and no negative population, a first run raises nothing,
    whatever the widget state and the sort kind: each file is read
    once, the memo is filled, and the page consists of the page
    configuration, the style, the continent filter, the four tiles, the
    trend chart, the model status, the map subheader, the map, the bar
    chart and the bubble chart, in this order. *)
Theorem run_renders_whole_page (k : SortKind) (trend : list TrendRecord)
    (rows : list CountryRecord) (ui : UserInput) :
  trend <> [] ->
  (forall r, In r rows -> (0 <= population r)%Z) ->
  let df_trend := Pandas.read_csv trend in
  let df_countries := Pandas.read_csv rows in
  let all_continents := all_continents_of df_countries in
  let selected_continents :=
    multiselect all_continents all_continents (continent_picks ui) in
  let df_filtered := filter_countries df_countries selected_continents in
  let col_map_metrics := selectbox metrics (metric_pick ui) in
  exists kpis err fig_map ranked fig_bar fig_bubble,
    summarize df_filtered = ok kpis /\
    model_status df_trend = ok err /\
    choropleth df_filtered col_map_metrics = ok fig_map /\
    top10 k col_map_metrics df_filtered = ok ranked /\
    bar_chart ranked col_map_metrics = ok fig_bar /\
    bubble_chart df_filtered = ok fig_bubble /\
    rerun k {| ml_global_prediction_csv := Some trend;
               country_insight_full_csv := Some rows |} ui fresh_process
    = (Done tt,
       {| cache := Some (df_trend, df_countries);
          reads := [ml_path; country_path] |},
       [ PageConfig "COVID-19 Analytics Dashboard"; Style;
         ContinentFilter all_continents selected_continents ]
       ++ kpi_tiles kpis
       ++ [ TrendChart (Pandas.values (Pandas.col date df_trend))
              (Pandas.values (Pandas.col new_cases_smoothed df_trend))
              (Pandas.values (Pandas.col prediction df_trend));
            ModelStatus (Python.format_f true 0 (Some err));
            Subheader
              ("COVID-19 Distribution Map (" ++
               match selected_continents with
               | _ :: _ => String.concat ", " selected_continents
               | [] => "All Continents"
               end ++ ")");
            fig_map; fig_bar; fig_bubble ]).
Proof.
  intros Hne Hpop df_trend df_countries all_continents selected_continents
    df_filtered col_map_metrics.
  destruct (summarize_total df_filtered) as [c [_ Ek]].
  assert (Es : exists err, model_status df_trend = ok err).
  { destruct (@iloc_last_nonempty _ df_trend) as [last_row El];
      [now apply read_csv_nonempty|].
    unfold model_status. rewrite El. eexists. reflexivity. }
  destruct Es as [err Es].
  destruct (@charts_built k col_map_metrics df_filtered)
    as [fig_map [ranked [fig_bar [Em [Er Eb]]]]];
    [apply selectbox_In; discriminate|].
  assert (Ebb : bubble_chart df_filtered
                = ok (BubbleChart
                        (map (fun ir => let r := snd ir in
                                (vaccination_rate r, mortality_rate r,
                                 population r, continent r, location r))
                           df_filtered)
                        (reference_lines df_filtered))).
  { apply bubble_chart_built. intros i r Hin. apply Hpop.
    rewrite <- (read_csv_rows rows).
    apply in_map_iff. exists (i, r). split; [reflexivity|].
    eapply sublist_In; [apply filter_countries_sublist|exact Hin]. }
  eexists. exists err, fig_map, ranked, fig_bar. eexists.
  split; [exact Ek|]. split; [exact Es|].
  split; [exact Em|]. split; [exact Er|]. split; [exact Eb|].
  split; [exact Ebb|].
  unfold fresh_process. rewrite rerun_cold.
  cbn [ml_global_prediction_csv country_insight_full_csv].
  subst col_map_metrics df_filtered selected_continents all_continents
    df_countries df_trend.
  cbv zeta. unfold rendering, dashboard. cbn [fst snd].
  rewrite bind_emit, Ek, bind_lift_ok, bind_emit_all, bind_emit.
  rewrite Es, bind_lift_ok, !bind_emit.
  erewrite bind_tab2_charts; [|exact Em|exact Er|exact Eb].
  rewrite Ebb, bind_lift_ok.
  unfold emit. cbn [fst snd process rendered fresh_process app kpi_tiles].
  reflexivity.
Qed.

Lemma run_renders_whole_page_witness :
  fst (fst (rerun kind_stable
              {| ml_global_prediction_csv := Some demo_trend;
                 country_insight_full_csv := Some demo_rows |}
              demo_ui fresh_process))
  = Done tt.
Proof.
  destruct (@run_renders_whole_page kind_stable demo_trend demo_rows
              demo_ui)
    as [kpis [err [fm [rk [fb [fbb [_ [_ [_ [_ [_ [_ E]]]]]]]]]]]].
  - discriminate.
  - intros r [<-|[<-|[<-|[]]]]; discriminate.
  - rewrite E. reflexivity.
Defined.

(** X9.  Over an empty trend table the run breaks off inside tab 1: the
    continent filter, the four tiles and an empty trend chart are on
    the page, the model status and everything of tabs 2 and 3 are not,
    the run ends with the [IndexError], and the memo is filled all the
    same. *)
Theorem empty_trend_leaves_partial_page (k : SortKind)
    (rows : list CountryRecord) (ui : UserInput) :
  let df_countries := Pandas.read_csv rows in
  let all_continents := all_continents_of df_countries in
  let selected_continents :=
    multiselect all_continents all_continents (continent_picks ui) in
  let df_filtered := filter_countries df_countries selected_continents in
  exists kpis,
    summarize df_filtered = ok kpis /\
    rerun k {| ml_global_prediction_csv := Some [];
               country_insight_full_csv := Some rows |} ui fresh_process
    = (Raised (IndexError "single positional indexer is out-of-bounds"),
       {| cache := Some ([], df_countries);
          reads := [ml_path; country_path] |},
       [ PageConfig "COVID-19 Analytics Dashboard"; Style;
         ContinentFilter all_continents selected_continents ]
       ++ kpi_tiles kpis ++ [ TrendChart [] [] [] ]).
Proof.
  intros df_countries all_continents selected_continents df_filtered.
  destruct (summarize_total df_filtered) as [c [_ Ek]].
  eexists. split; [exact Ek|].
  unfold fresh_process. rewrite rerun_cold.
  cbn [ml_global_prediction_csv country_insight_full_csv].
  subst df_filtered selected_continents all_continents df_countries.
  cbv zeta. unfold rendering, dashboard. cbn [fst snd].
  rewrite bind_emit, Ek, bind_lift_ok, bind_emit_all, bind_emit.
  change (model_status (Pandas.read_csv []))
    with (@throw Q (IndexError "single positional indexer is out-of-bounds")).
  rewrite bind_lift_throw.
  cbn [fst snd process rendered fresh_process app kpi_tiles].
  reflexivity.
Qed.

(** X10.  The loader opens the trend file first and memoises nothing
    unless both files are read: in a process where the trend file is
    absent no file is ever read, the per-country file included; where
    only the per-country file is absent, every run reads the trend file
    anew. *)
Theorem load_data_read_order (k : SortKind) (uis : list UserInput) :
  (forall country_file,
     reads (session k {| ml_global_prediction_csv := None;
                         country_insight_full_csv := country_file |}
              uis fresh_process) = []) /\
  (forall trend,
     reads (session k {| ml_global_prediction_csv := Some trend;
                         country_insight_full_csv := None |}
              uis fresh_process)
     = repeat ml_path (List.length uis)).
Proof.
  split.
  - intros country_file. unfold fresh_process.
    induction uis as [|ui uis IH]; [reflexivity|].
    cbn [session]. rewrite rerun_cold. exact IH.
  - intros trend. unfold fresh_process.
    assert (H : forall log,
              reads (session k {| ml_global_prediction_csv := Some trend;
                                  country_insight_full_csv := None |}
                       uis {| cache := None; reads := log |})
              = log ++ repeat ml_path (List.length uis)).
    { induction uis as [|ui uis IH]; intros log; cbn [session].
      - simpl. now rewrite app_nil_r.
      - rewrite rerun_cold.
        cbn [ml_global_prediction_csv country_insight_full_csv fst snd].
        rewrite IH.
        now rewrite <- app_assoc. }
    apply H.
Qed.

(** The page of a run over loaded tables, element by element. *)
Lemma rendering_explicit k (tables : Tables) ui :
  let df_trend := fst tables in
  let df_countries := snd tables in
  let all_continents := all_continents_of df_countries in
  let selected_continents :=
    multiselect all_continents all_continents (continent_picks ui) in
  let df_filtered := filter_countries df_countries selected_continents in
  let col_map_metrics := selectbox metrics (metric_pick ui) in
  exists kpis fig_map ranked fig_bar,
    summarize df_filtered = ok kpis /\
    choropleth df_filtered col_map_metrics = ok fig_map /\
    top10 k col_map_metrics df_filtered = ok ranked /\
    bar_chart ranked col_map_metrics = ok fig_bar /\
    echoes_selection fig_map = false /\
    echoes_selection fig_bar = false /\
    rendering k tables ui
    = match model_status df_trend with
      | inl e =>
          (Raised e,
           ContinentFilter all_continents selected_continents
           :: kpi_tiles kpis
           ++ [ TrendChart (Pandas.values (Pandas.col date df_trend))
                  (Pandas.values (Pandas.col new_cases_smoothed df_trend))
                  (Pandas.values (Pandas.col prediction df_trend)) ])
      | inr err =>
          (match bubble_chart df_filtered with
           | inl e => Raised e
           | inr _ => Done tt
           end,
           ContinentFilter all_continents selected_continents
           :: kpi_tiles kpis
           ++ [ TrendChart (Pandas.values (Pandas.col date df_trend))
                  (Pandas.values (Pandas.col new_cases_smoothed df_trend))
                  (Pandas.values (Pandas.col prediction df_trend));
                ModelStatus (Python.format_f true 0 (Some err));
                Subheader
                  ("COVID-19 Distribution Map (" ++
                   match selected_continents with
                   | _ :: _ => String.concat ", " selected_continents
                   | [] => "All Continents"
                   end ++ ")");
                fig_map; fig_bar ]
           ++ match bubble_chart df_filtered with
              | inl _ => []
              | inr fig_bubble => [fig_bubble]
              end)
      end.
Proof.
  intros df_trend df_countries all_continents selected_continents
    df_filtered col_map_metrics.
  destruct (summarize_total df_filtered) as [c [_ Ek]].
  assert (Hm : In col_map_metrics metrics)
    by (apply selectbox_In; discriminate).
  destruct (metric_column Hm) as [f Hf].
  eexists. exists
    (Choropleth col_map_metrics
       (if negb (String.eqb col_map_metrics "vaccination_rate")
        then "Reds" else "Greens")
       (map (fun ir => (iso_code (snd ir), location (snd ir),
                        Num (f (snd ir)))) df_filtered)).
  do 2 eexists.
  split; [exact Ek|].
  split; [unfold choropleth; rewrite Hf; reflexivity|].
  split; [unfold top10, sort_values; rewrite Hf; reflexivity|].
  split; [unfold bar_chart; rewrite Hf; reflexivity|].
  split; [reflexivity|]. split; [reflexivity|].
  subst col_map_metrics df_filtered selected_continents all_continents
    df_countries df_trend.
  unfold rendering, dashboard. cbn [fst snd].
  rewrite bind_emit, Ek, bind_lift_ok, bind_emit_all, bind_emit.
  destruct (model_status (fst tables)) as [e|err].
  - change (@inl exn Q e) with (@throw Q e). rewrite bind_lift_throw.
    cbn [fst snd process rendered fresh_process app kpi_tiles].
    reflexivity.
  - change (@inr exn Q err) with (ok err). rewrite bind_lift_ok, !bind_emit.
    erewrite bind_tab2_charts;
      [|unfold choropleth; rewrite Hf; reflexivity
       |unfold top10, sort_values; rewrite Hf; reflexivity
       |unfold bar_chart; rewrite Hf; reflexivity].
    destruct (bubble_chart _) as [e|fig_bubble].
    + change (@inl exn Element e) with (@throw Element e).
      rewrite bind_lift_throw.
      cbn [fst snd process rendered fresh_process app kpi_tiles].
      now rewrite app_nil_r.
    + change (@inr exn Element fig_bubble) with (ok fig_bubble).
      rewrite bind_lift_ok. unfold emit.
      cbn [fst snd process rendered fresh_process app kpi_tiles].
      rewrite <- !app_assoc. reflexivity.
Qed.

(** X11.  Deselecting every continent shows the data of the untouched
    filter: the two runs end the same way and render the same tiles,
    trend chart, model status, map, bar chart and bubble chart; only
    the filter widget and the map's subheader, which repeat the
    selection, differ. *)
Theorem emptied_filter_shows_default_page (k : SortKind) (tables : Tables)
    (pick : nat) :
  let untouched :=
    rendering k tables
      {| continent_picks := None; metric_pick := pick |} in
  let emptied :=
    rendering k tables
      {| continent_picks := Some []; metric_pick := pick |} in
  fst untouched = fst emptied /\
  filter (fun e => negb (echoes_selection e)) (snd untouched)
  = filter (fun e => negb (echoes_selection e)) (snd emptied).
Proof.
  intros untouched emptied. subst untouched emptied.
  destruct (rendering_explicit k tables
              {| continent_picks := None; metric_pick := pick |})
    as [kpis [fm [rk [fb [Ek [Em [Er [Eb [Hfm [Hfb ->]]]]]]]]]].
  destruct (rendering_explicit k tables
              {| continent_picks := Some []; metric_pick := pick |})
    as [kpis' [fm' [rk' [fb' [Ek' [Em' [Er' [Eb' [Hfm' [Hfb' ->]]]]]]]]]].
  cbn [continent_picks multiselect flat_map metric_pick] in *.
  rewrite filter_countries_all in *.
  cbn [filter_countries] in *.
  rewrite Ek in Ek'. injection Ek' as <-.
  rewrite Em in Em'. injection Em' as <-.
  rewrite Er in Er'. injection Er' as <-.
  rewrite Eb in Eb'. injection Eb' as <-.
  destruct (model_status (fst tables)) as [e|err]; cbn [fst snd];
    split; reflexivity.
Qed.

(** ** Displayed numbers *)

Lemma round_half_even_scale1 q :
  Python.round_half_even (q * inject_Z 1) = Python.round_half_even q.
Proof.
  destruct q as [n d]. unfold Python.round_half_even.
  cbn [Qnum Qden Qmult inject_Z].
  now rewrite Z.mul_1_r, Pos.mul_1_r.
Qed.

Lemma round_half_even_nonneg q :
  (0 <= q)%Q -> (0 <= Python.round_half_even q)%Z.
Proof.
  destruct q as [n d]. unfold Qle, Python.round_half_even.
  cbn [Qnum Qden]. intros Hn.
  assert (0 <= n / Z.pos d)%Z by (apply Z.div_pos; lia).
  destruct (2 * (n mod Z.pos d) <? Z.pos d)%Z; [assumption|].
  destruct (Z.pos d <? 2 * (n mod Z.pos d))%Z; [lia|].
  destruct (Z.even (n / Z.pos d)); lia.
Qed.

Lemma round_half_even_error q :
  (q - (1 # 2) <= inject_Z (Python.round_half_even q) /\
   inject_Z (Python.round_half_even q) <= q + (1 # 2))%Q.
Proof.
  destruct q as [n d]. unfold Python.round_half_even. cbn [Qnum Qden].
  pose proof (Z.div_mod n (Z.pos d) ltac:(lia)) as Hdm.
  pose proof (Z.mod_pos_bound n (Z.pos d) ltac:(lia)) as Hb.
  set (fl := (n / Z.pos d)%Z) in *. set (r := (n mod Z.pos d)%Z) in *.
  assert (Hcases :
    forall z : Z,
      (2 * n - Z.pos d <= 2 * (z * Z.pos d) <= 2 * n + Z.pos d)%Z ->
      (n # d) - (1 # 2) <= inject_Z z /\ inject_Z z <= (n # d) + (1 # 2)).
  { intros z Hz. unfold Qle, Qminus, Qplus, Qopp, inject_Z.
    cbn [Qnum Qden]. rewrite !Pos2Z.inj_mul. split; nia. }
  apply Hcases.
  destruct (Z.ltb_spec (2 * r) (Z.pos d)); [nia|].
  destruct (Z.ltb_spec (Z.pos d) (2 * r)); [nia|].
  destruct (Z.even fl); nia.
Qed.

Lemma filter_group3 (p : ascii -> bool) l :
  p ","%char = false ->
  filter p (Python.group3 l) = filter p l.
Proof.
  intros Hp.
  assert (H : forall n l, (List.length l <= n)%nat ->
                          filter p (Python.group3 l) = filter p l).
  { clear l. induction n as [|n IH]; intros l Hl.
    - destruct l; [reflexivity|simpl in Hl; lia].
    - destruct l as [|a [|b [|c [|d l]]]]; try reflexivity.
      change (Python.group3 (a :: b :: c :: d :: l))
        with (a :: b :: c :: ","%char :: Python.group3 (d :: l)).
      cbn [filter]. rewrite Hp, (IH (d :: l)) by (simpl in *; lia).
      reflexivity. }
  now apply (H (List.length l)).
Qed.

Lemma string_of_uint_digits d c :
  In c (list_ascii_of_string (NilEmpty.string_of_uint d)) ->
  Ascii.eqb c "," = false.
Proof.
  induction d; simpl; intros H; try contradiction;
    (destruct H as [<-|H]; [reflexivity|now apply IHd]).
Qed.

Lemma digits_no_separator n c :
  In c (Python.digits n) -> Ascii.eqb c "," = false.
Proof.
  unfold Python.digits, NilZero.string_of_uint.
  destruct (N.to_uint (Z.to_N n)) eqn:E;
    try (rewrite <- E; apply string_of_uint_digits).
  simpl. intros [<-|[]]. reflexivity.
Qed.

(** X12.  The tiles of the two totals show the nearest integer: for a
    total that is not negative, the displayed text read back without
    its thousands separators is the total rounded to an integer (halves
    to the even neighbour), and that integer is within one half of the
    total. *)
Theorem total_tile_reads_back (q : Q) :
  (0 <= q)%Q ->
  read_grouped (Python.format_f true 0 (Some q))
  = Some (Python.round_half_even q) /\
  (q - (1 # 2) <= inject_Z (Python.round_half_even q) /\
   inject_Z (Python.round_half_even q) <= q + (1 # 2))%Q.
Proof.
  intros Hq. split; [|apply round_half_even_error].
  pose proof (round_half_even_nonneg Hq) as Hr.
  unfold read_grouped, Python.format_f.
  change (10 ^ Z.of_nat 0)%Z with 1%Z.
  rewrite round_half_even_scale1, Z.div_1_r, (Z.abs_eq _ Hr).
  rewrite (proj2 (Qle_bool_iff 0 q) Hq).
  cbn [app]. rewrite app_nil_r.
  rewrite list_ascii_of_string_of_list_ascii.
  rewrite app_nil_l, filter_rev, filter_group3 by reflexivity.
  rewrite <- filter_rev, rev_involutive.
  rewrite filter_all.
  2:{ intros c Hc. now rewrite (digits_no_separator _ _ Hc). }
  unfold Python.digits. rewrite string_of_list_ascii_of_string.
  destruct (NilZero.usu_gen (N.to_uint (Z.to_N (Python.round_half_even q))))
    as [E|E]; rewrite E; cbn [option_map].
  - now rewrite DecimalN.Unsigned.of_to, Z2N.id.
  - destruct (N.to_uint (Z.to_N (Python.round_half_even q))) eqn:Eu;
      try (rewrite NilZero.usu in E by discriminate;
           injection E as E; rewrite <- E, <- Eu;
           now rewrite DecimalN.Unsigned.of_to, Z2N.id).
    pose proof (DecimalN.Unsigned.of_to
                  (Z.to_N (Python.round_half_even q))) as Hof.
    rewrite Eu in Hof. simpl in Hof.
    change (N.of_uint Decimal.zero) with 0%N. rewrite Hof.
    now rewrite Z2N.id.
Qed.

Lemma total_tile_reads_back_witness :
  read_grouped (Python.format_f true 0 (Some (12345675 # 10)))
  = Some 1234568%Z.
Proof.
  refine (proj1 (@total_tile_reads_back (12345675 # 10) _)).
  discriminate.
Defined.

(** ** The labels of the metric selector *)

Lemma lower_to_upper c :
  Python.is_lower c = true ->
  Python.is_lower (Python.to_upper c) = false /\
  Python.is_upper (Python.to_upper c) = true /\
  Ascii.eqb (Python.to_upper c) "_" = false /\
  Ascii.eqb c "_" = false.
Proof.
  destruct c as [[] [] [] [] [] [] [] []]; vm_compute; intros H;
    try discriminate H; repeat split.
Qed.

Lemma upper_to_lower c :
  Python.is_upper c = true ->
  Python.is_lower c = false /\
  Python.is_lower (Python.to_lower c) = true /\
  Ascii.eqb (Python.to_lower c) "_" = false /\
  Ascii.eqb c "_" = false.
Proof.
  destruct c as [[] [] [] [] [] [] [] []]; vm_compute; intros H;
    try discriminate H; repeat split.
Qed.

Lemma title_from_idempotent b s :
  Python.title_from b (Python.title_from b s) = Python.title_from b s.
Proof.
  revert b. induction s as [|c s IH]; intros b; [reflexivity|].
  cbn [Python.title_from].
  destruct (Python.is_lower c) eqn:Hl.
  - destruct (lower_to_upper c Hl) as [Hul [Huu _]].
    destruct b; cbn [Python.title_from].
    + now rewrite Hl, IH.
    + now rewrite Hul, Huu, IH.
  - destruct (Python.is_upper c) eqn:Hu.
    + destruct (upper_to_lower c Hu) as [_ [Hll _]].
      destruct b; cbn [Python.title_from].
      * now rewrite Hll, IH.
      * now rewrite Hl, Hu, IH.
    + cbn [Python.title_from]. now rewrite Hl, Hu, IH.
Qed.

Lemma title_from_length b s :
  String.length (Python.title_from b s) = String.length s.
Proof.
  revert b. induction s as [|c s IH]; intros b; [reflexivity|].
  cbn [Python.title_from].
  destruct (Python.is_lower c); [|destruct (Python.is_upper c)];
    cbn [String.length]; now rewrite IH.
Qed.

Lemma title_from_no_underscore b s :
  Forall (fun c => Ascii.eqb c "_" = false) (list_ascii_of_string s) ->
  Forall (fun c => Ascii.eqb c "_" = false)
    (list_ascii_of_string (Python.title_from b s)).
Proof.
  revert b. induction s as [|c s IH]; intros b H; [constructor|].
  cbn [list_ascii_of_string] in H. inversion H as [|? ? Hc Hs]; subst.
  cbn [Python.title_from].
  destruct (Python.is_lower c) eqn:Hl.
  - destruct (lower_to_upper c Hl) as [_ [_ [Hu _]]].
    cbn [list_ascii_of_string]. constructor; [now destruct b|now apply IH].
  - destruct (Python.is_upper c) eqn:Hu.
    + destruct (upper_to_lower c Hu) as [_ [_ [Hlow _]]].
      cbn [list_ascii_of_string].
      constructor; [now destruct b|now apply IH].
    + cbn [list_ascii_of_string]. constructor; [exact Hc|now apply IH].
Qed.

Lemma replace_char_removes old new s :
  Ascii.eqb new old = false ->
  Forall (fun c => Ascii.eqb c old = false)
    (list_ascii_of_string (Python.replace_char old new s)).
Proof.
  intros Hn. induction s as [|c s IH]; [constructor|].
  cbn [Python.replace_char list_ascii_of_string].
  constructor; [|exact IH].
  destruct (Ascii.eqb c old) eqn:E; [exact Hn|exact E].
Qed.

Lemma replace_char_absent old new s :
  Forall (fun c => Ascii.eqb c old = false) (list_ascii_of_string s) ->
  Python.replace_char old new s = s.
Proof.
  induction s as [|c s IH]; intros H; [reflexivity|].
  cbn [list_ascii_of_string] in H. inversion H as [|? ? Hc Hs]; subst.
  cbn [Python.replace_char]. now rewrite Hc, IH.
Qed.

Lemma replace_char_length old new s :
  String.length (Python.replace_char old new s) = String.length s.
Proof.
  induction s as [|c s IH]; [reflexivity|].
  cbn [Python.replace_char String.length]. now rewrite IH.
Qed.

(** X13.  The label of an option has the length of the option's name,
    holds no underscore, and is left as it is when labelled again. *)
Theorem format_func_label (x : string) :
  String.length (format_func x) = String.length x /\
  Forall (fun c => Ascii.eqb c "_" = false)
    (list_ascii_of_string (format_func x)) /\
  format_func (format_func x) = format_func x.
Proof.
  assert (Hno : Forall (fun c => Ascii.eqb c "_" = false)
                  (list_ascii_of_string (format_func x))).
  { unfold format_func, Python.title. apply title_from_no_underscore.
    now apply replace_char_removes. }
  split; [|split; [exact Hno|]].
  - unfold format_func, Python.title.
    now rewrite title_from_length, replace_char_length.
  - unfold format_func at 1.
    rewrite (replace_char_absent _ _ _ Hno).
    unfold format_func, Python.title. apply title_from_idempotent.
Qed.

(** ** Growing the selection, reordering the file *)

Lemma sublist_filter_impl {A} (p p' : A -> bool) l :
  (forall x, p x = true -> p' x = true) ->
  sublist (filter p l) (filter p' l).
Proof.
  intros H. induction l as [|x l IH]; simpl; [constructor|].
  destruct (p x) eqn:E.
  - rewrite (H x E). now constructor.
  - destruct (p' x); [now constructor|exact IH].
Qed.

(** X14.  A larger selection keeps more: when a non-empty selection is
    contained in another, the rows it keeps are a sublist of the rows
    the other keeps.  (The empty selection is excluded: it keeps every
    row.) *)
Theorem larger_selection_keeps_more
    (df_countries : Pandas.DataFrame CountryRecord)
    (selected selected' : list string) :
  selected <> [] -> incl selected selected' ->
  sublist (filter_countries df_countries selected)
    (filter_countries df_countries selected').
Proof.
  intros Hne Hincl. rewrite !filter_countries_filter.
  destruct selected as [|c cs]; [congruence|].
  destruct selected' as [|c' cs'].
  - exfalso. apply (Hincl c). now left.
  - apply sublist_filter_impl. intros ir.
    rewrite !existsb_eqb_In. apply Hincl.
Qed.

Lemma larger_selection_keeps_more_witness :
  sublist (filter_countries (Pandas.read_csv demo_rows) ["AS"])
    (filter_countries (Pandas.read_csv demo_rows) ["EU"; "AS"]).
Proof.
  apply larger_selection_keeps_more.
  - discriminate.
  - intros c [<-|[]]. right. now left.
Defined.

(** The empty selection is no smaller selection: it keeps rows that the
    selection of one continent drops. *)
Example empty_selection_keeps_all :
  ~ sublist (filter_countries (Pandas.read_csv demo_rows) [])
      (filter_countries (Pandas.read_csv demo_rows) ["AS"]).
Proof.
  intros H. vm_compute in H.
  inversion H as [|? ? ? H1|]; subst. inversion H1.
Qed.

Lemma sorted_strict_unique (l1 l2 : list string) :
  StronglySorted (fun a b => String.ltb a b = true) l1 ->
  StronglySorted (fun a b => String.ltb a b = true) l2 ->
  (forall x, In x l1 <-> In x l2) -> l1 = l2.
Proof.
  assert (Hlt : forall a b, String.ltb a b = true ->
                            OrderedTypeEx.String_as_OT.lt a b).
  { intros a b H. apply OrderedTypeEx.String_as_OT.cmp_lt.
    unfold String.ltb, OrderedTypeEx.String_as_OT.cmp in *.
    now destruct (String.compare a b). }
  assert (Hirr : forall a, String.ltb a a = true -> False).
  { intros a H. apply Hlt in H.
    apply OrderedTypeEx.String_as_OT.lt_not_eq in H. now apply H. }
  assert (Hasym : forall a b, String.ltb a b = true ->
                              String.ltb b a = true -> False).
  { intros a b H1 H2. apply Hlt in H1, H2.
    pose proof (OrderedTypeEx.String_as_OT.lt_trans _ _ _ H1 H2) as H.
    apply OrderedTypeEx.String_as_OT.lt_not_eq in H. now apply H. }
  intros H1. revert l2.
  induction H1 as [|a l1 Hs1 IH Ha]; intros l2 H2 Hmem.
  - destruct l2 as [|b l2]; [reflexivity|].
    exfalso. apply (Hmem b). now left.
  - destruct H2 as [|b l2 Hs2 Hb].
    + exfalso. apply (Hmem a). now left.
    + rewrite Forall_forall in Ha, Hb.
      assert (Eab : a = b).
      { destruct (proj1 (Hmem a) (or_introl eq_refl)) as [E|Hin1];
          [now symmetry|].
        destruct (proj2 (Hmem b) (or_introl eq_refl)) as [E|Hin2];
          [exact E|].
        exfalso. exact (Hasym _ _ (Ha _ Hin2) (Hb _ Hin1)). }
      subst b. f_equal. apply IH; [exact Hs2|].
      intros x. split; intros Hx.
      * destruct (proj1 (Hmem x) (or_intror Hx)) as [<-|H]; [|exact H].
        exfalso. exact (Hirr _ (Ha _ Hx)).
      * destruct (proj2 (Hmem x) (or_intror Hx)) as [<-|H]; [|exact H].
        exfalso. exact (Hirr _ (Hb _ Hx)).
Qed.

Lemma all_continents_strict (df : Pandas.DataFrame CountryRecord) :
  StronglySorted (fun a b => String.ltb a b = true) (all_continents_of df).
Proof.
  apply StronglySorted_strict with (le := fun a b => String.leb a b = true).
  - apply string_ltb_leb.
  - unfold all_continents_of, Python.sorted. apply sort_stable_sorted.
    + intros a b. apply String.leb_total.
    + apply string_leb_trans.
  - unfold all_continents_of, Python.sorted.
    eapply Permutation_NoDup;
      [symmetry; apply sort_stable_perm|apply unique_from_NoDup].
Qed.

(** X15.  The order of the rows in the per-country file is immaterial
    to the filter options: two files with the same rows in different
    orders give the same list of continents. *)
Theorem row_order_is_immaterial (rows rows' : list CountryRecord) :
  Permutation rows rows' ->
  all_continents_of (Pandas.read_csv rows)
  = all_continents_of (Pandas.read_csv rows').
Proof.
  intros Hp.
  apply sorted_strict_unique; try apply all_continents_strict.
  assert (H : forall rs rs' c, Permutation rs rs' ->
            In c (all_continents_of (Pandas.read_csv rs)) ->
            In c (all_continents_of (Pandas.read_csv rs'))).
  { intros rs rs' c Hrs Hc. apply all_continents_In in Hc.
    destruct Hc as [[i r] [Hin Hc]]. apply all_continents_In.
    assert (Hr : In r rs').
    { apply (Permutation_in _ Hrs). rewrite <- (read_csv_rows rs).
      apply in_map_iff. now exists (i, r). }
    rewrite <- (read_csv_rows rs') in Hr. apply in_map_iff in Hr.
    destruct Hr as [[j r'] [E Hj]]. simpl in E. subst r'.
    now exists (j, r). }
  intros c. split; apply H; [exact Hp|now symmetry].
Qed.

Lemma row_order_is_immaterial_witness :
  all_continents_of (Pandas.read_csv demo_rows)
  = all_continents_of (Pandas.read_csv (rev demo_rows)).
Proof.
  apply row_order_is_immaterial. apply Permutation_rev.
Defined.

(** ** Recovery of the loader *)

(** X16.  A failed load leaves nothing behind: in a process whose runs
    so far all stopped on a missing file, the first run that finds both
    files reads them, fills the memo with their tables and renders the
    dashboard for them instead of the error page. *)
Theorem load_recovers_when_files_appear (k : SortKind) (fs : Files)
    (uis : list UserInput) (trend : list TrendRecord)
    (rows : list CountryRecord) (ui : UserInput) :
  ml_global_prediction_csv fs = None \/ country_insight_full_csv fs = None ->
  let p := session k fs uis fresh_process in
  let tables := (Pandas.read_csv trend, Pandas.read_csv rows) in
  rerun k {| ml_global_prediction_csv := Some trend;
             country_insight_full_csv := Some rows |} ui p
  = (fst (rendering k tables ui),
     {| cache := Some tables;
        reads := (reads p ++ [ml_path]) ++ [country_path] |},
     PageConfig "COVID-19 Analytics Dashboard" :: Style
       :: snd (rendering k tables ui)).
Proof.
  intros Hfs p tables.
  assert (Hp : cache p = None) by (now apply session_missing).
  destruct p as [c log]. simpl in Hp. subst c.
  now rewrite rerun_cold.
Qed.

Lemma load_recovers_when_files_appear_witness :
  cache (snd (fst (rerun kind_stable
                     {| ml_global_prediction_csv := Some demo_trend;
                        country_insight_full_csv := Some demo_rows |}
                     demo_ui
                     (session kind_stable
                        {| ml_global_prediction_csv := Some demo_trend;
                           country_insight_full_csv := None |}
                        [demo_ui; demo_ui] fresh_process))))
  = Some (Pandas.read_csv demo_trend, Pandas.read_csv demo_rows).
Proof.
  rewrite (@load_recovers_when_files_appear kind_stable
             {| ml_global_prediction_csv := Some demo_trend;
                country_insight_full_csv := None |}
             [demo_ui; demo_ui] demo_trend demo_rows demo_ui).
  - reflexivity.
  - right. reflexivity.
Defined.

(** ** The metric of the charts *)

(** X17.  The charts are only ever drawn for a listed metric: in every
    run over loaded tables, whatever the widget state, the colour
    column of a rendered map and the value column of a rendered bar
    chart are among total_cases, total_deaths and vaccination_rate. *)
Theorem charts_use_listed_metric (k : SortKind) (tables : Tables)
    (ui : UserInput) (e : Element) :
  In e (snd (rendering k tables ui)) ->
  match e with
  | Choropleth color _ _ => In color metrics
  | BarChart x _ => In x metrics
  | _ => True
  end.
Proof.
  intros Hin.
  destruct (rendering_explicit k tables ui)
    as [kpis [fm [rk [fb [_ [Em [_ [Eb [_ [_ E]]]]]]]]]].
  assert (Hm : In (selectbox metrics (metric_pick ui)) metrics)
    by (apply selectbox_In; discriminate).
  destruct (metric_column Hm) as [f Hf].
  unfold choropleth in Em. rewrite Hf in Em. injection Em as <-.
  unfold bar_chart in Eb. rewrite Hf in Eb. injection Eb as <-.
  rewrite E in Hin. clear E.
  assert (Hb : forall df fig, bubble_chart df = ok fig ->
                              exists ps ls, fig = BubbleChart ps ls).
  { intros df fig. unfold bubble_chart.
    destruct (forallb _ df); [|discriminate].
    intros H. injection H as <-. eauto. }
  destruct (model_status (fst tables)) as [e1|err].
  - cbn [snd kpi_tiles app In] in Hin.
    repeat (destruct Hin as [<-|Hin]; [exact I|]). contradiction.
  - destruct (bubble_chart _) as [e2|fig] eqn:Ebb;
      cbn [snd kpi_tiles app In] in Hin.
    + repeat (destruct Hin as [<-|Hin]; [exact I || exact Hm|]).
      contradiction.
    + destruct (Hb _ _ Ebb) as [ps [ls ->]].
      repeat (destruct Hin as [<-|Hin]; [exact I || exact Hm|]).
      contradiction.
Qed.

Lemma charts_use_listed_metric_witness :
  In "vaccination_rate" metrics.
Proof.
  apply (@charts_use_listed_metric kind_stable
           (Pandas.read_csv demo_trend, Pandas.read_csv demo_rows)
           {| continent_picks := Some [1%nat]; metric_pick := 2 |}
           (BarChart "vaccination_rate" [("E1", Num 0); ("E2", Num 0)])).
  vm_compute. tauto.
Defined.
